(** * Treadmill TUI: telemetry pipeline of [src/tui/app.py]

    A shallow embedding of the Textual application that shows the telemetry
    of an FTMS treadmill: the bounded telemetry queue, the consumer loop
    [watch_queue] that formats one snapshot into five display strings, the
    four button handlers, the exclusive worker started by [on_mount] and the
    teardown of [run].

    Python values are modelled as the interpreter has them: [int] as [Z],
    [float] as IEEE 754 binary64 through the standard library's [SpecFloat]
    (precision 53, [emax] 1024), [str] as [string], exceptions as an error
    monad. *)

From Stdlib Require Import ZArith List String Ascii Bool Lia Lra Reals.
From Stdlib Require Import SpecFloat.
Import ListNotations.

Local Open Scope string_scope.
Local Open Scope Z_scope.

(** ** Exceptions *)

Module Py.

Inductive exn : Type :=
| ZeroDivisionError
| OverflowError
| ValueError
| CancelledError.

Inductive result (A : Type) : Type :=
| Ok (a : A)
| Raise (e : exn).

Arguments Ok {A} a.
Arguments Raise {A} e.

Definition bind {A B : Type} (r : result A) (k : A -> result B) : result B :=
  match r with
  | Ok a => k a
  | Raise e => Raise e
  end.

Notation "x <- r ;; k" := (bind r (fun x => k))
  (at level 61, r at next level, right associativity).

Definition raises {A : Type} (r : result A) : Prop :=
  match r with
  | Ok _ => False
  | Raise _ => True
  end.

(** ** [str(int)] and the [0{width}d] format *)

Definition digit_of (d : Z) : ascii := ascii_of_nat (48 + Z.to_nat d).

(** Decimal digits of a non-negative integer, most significant first. *)
Fixpoint to_digits (fuel : nat) (n : Z) (acc : string) : string :=
  match fuel with
  | O => acc
  | S fuel' =>
      let acc' := String (digit_of (n mod 10)) acc in
      if n / 10 =? 0 then acc' else to_digits fuel' (n / 10) acc'
  end.

Definition str_nonneg (n : Z) : string :=
  to_digits (S (Z.to_nat (Z.log2 n))) n "".

(** [str(n)] for an [int]. *)
Definition str_int (n : Z) : string :=
  if n <? 0 then "-" ++ str_nonneg (- n) else str_nonneg n.

Fixpoint zeros (k : nat) : string :=
  match k with
  | O => ""
  | S k' => String "0" (zeros k')
  end.

(** Fill character ['0'] implies the sign-aware alignment ['=']: the padding
    goes between the sign and the digits, and a body wider than the field is
    left as it is. *)
Definition zfill_sign (width : nat) (neg : bool) (body : string) : string :=
  let sign := if neg then "-" else "" in
  sign ++ zeros (width - String.length sign - String.length body) ++ body.

(** [format(n, "0{width}d")]. *)
Definition format_d (width : nat) (n : Z) : string :=
  zfill_sign width (n <? 0) (str_nonneg (Z.abs n)).

(** ** binary64 *)

Definition prec : Z := 53.
Definition emax : Z := 1024.

Definition float : Type := spec_float.

Definition is_zero (x : float) : bool :=
  match x with
  | S754_zero _ => true
  | _ => false
  end.

(** [float(n)] for an [int]: correctly rounded, [OverflowError] beyond the
    largest finite double. *)
Definition float_of_int (n : Z) : result float :=
  match binary_normalize prec emax n 0 false with
  | S754_infinity _ => Raise OverflowError
  | f => Ok f
  end.

(** An integer as an unrounded mantissa with exponent 0. *)
Definition exact_int (n : Z) : float :=
  match n with
  | Z0 => S754_zero false
  | Zpos p => S754_finite false p 0
  | Zneg p => S754_finite true p 0
  end.

(** [a / b] on two [int]s: the correctly rounded quotient. *)
Definition int_truediv (a b : Z) : result float :=
  if b =? 0 then Raise ZeroDivisionError
  else match SFdiv prec emax (exact_int a) (exact_int b) with
       | S754_infinity _ => Raise OverflowError
       | f => Ok f
       end.

Definition float_mul (x y : float) : float := SFmul prec emax x y.

(** [x / y] on two [float]s. *)
Definition float_truediv (x y : float) : result float :=
  if is_zero y then Raise ZeroDivisionError else Ok (SFdiv prec emax x y).

(** [a / y] with [a] an [int] and [y] a [float]: the [int] is converted
    first. *)
Definition int_div_float (a : Z) (y : float) : result float :=
  x <- float_of_int a ;;
  float_truediv x y.

(** [int(x)] for a [float]: truncation toward zero. *)
Definition int_of_float (x : float) : result Z :=
  match x with
  | S754_nan => Raise ValueError
  | S754_infinity _ => Raise OverflowError
  | S754_zero _ => Ok 0
  | S754_finite s m e =>
      let a := if 0 <=? e then Z.pos m * 2 ^ e else Z.pos m / 2 ^ (- e) in
      Ok (if s then - a else a)
  end.

(** A number as a configuration constant can hold it. *)
Inductive number : Type :=
| Int (n : Z)
| Float (x : float).

(** [int(v)]. *)
Definition int_of (v : number) : result Z :=
  match v with
  | Int n => Ok n
  | Float x => int_of_float x
  end.

(** ** The [0{width}.{p}f] format *)

(** [num / den] rounded to the nearest integer, ties to even
    ([0 <= num], [0 < den]). *)
Definition round_half_even (num den : Z) : Z :=
  let q := num / den in
  let r := num mod den in
  match 2 * r ?= den with
  | Lt => q
  | Gt => q + 1
  | Eq => if Z.even q then q else q + 1
  end.

(** [m * 2^e * 10^p] rounded to the nearest integer, ties to even. *)
Definition scaled_decimal (p : nat) (m : positive) (e : Z) : Z :=
  let t := 10 ^ Z.of_nat p in
  if 0 <=? e then Z.pos m * 2 ^ e * t
  else round_half_even (Z.pos m * t) (2 ^ (- e)).

(** The digits of [n / 10^p] in fixed notation with [p] decimals. *)
Definition fixed_digits (p : nat) (n : Z) : string :=
  let t := 10 ^ Z.of_nat p in
  str_nonneg (n / t) ++
  match p with
  | O => ""
  | S _ => "." ++ zfill_sign p false (str_nonneg (n mod t))
  end.

(** [format(x, "0{width}.{p}f")] for a [float]. *)
Definition format_f (width p : nat) (x : float) : string :=
  match x with
  | S754_nan => zfill_sign width false "nan"
  | S754_infinity s => zfill_sign width s "inf"
  | S754_zero s => zfill_sign width s (fixed_digits p 0)
  | S754_finite s m e =>
      zfill_sign width s (fixed_digits p (scaled_decimal p m e))
  end.

(** ** [datetime.timedelta] *)

Record timedelta : Type := {
  days : Z;
  seconds : Z;
  microseconds : Z
}.

(** [timedelta(seconds=s)] for an [int]: normalised to
    [0 <= seconds < 86400]; the day count is limited to nine digits. *)
Definition timedelta_of_seconds (s : Z) : result timedelta :=
  let d := s / 86400 in
  if 999999999 <? Z.abs d then Raise OverflowError
  else Ok {| days := d; seconds := s mod 86400; microseconds := 0 |}.

(** [timedelta.__str__]. *)
Definition timedelta_str (td : timedelta) : string :=
  let mm := seconds td / 60 in
  let ss := seconds td mod 60 in
  let hh := mm / 60 in
  let mm := mm mod 60 in
  let s := str_int hh ++ ":" ++ format_d 2 mm ++ ":" ++ format_d 2 ss in
  let s :=
    if days td =? 0 then s
    else str_int (days td) ++ " day"
         ++ (if Z.abs (days td) =? 1 then "" else "s") ++ ", " ++ s in
  if microseconds td =? 0 then s
  else s ++ "." ++ format_d 6 (microseconds td).

End Py.

Import Py.

(** ** [asyncio.Queue] *)

Module Queue.

Section Defs.

Context {A : Type}.

(** The [deque] of a queue and its bound. *)
Record t : Type := {
  maxsize : Z;
  items : list A
}.

Definition create (n : Z) : t := {| maxsize := n; items := [] |}.

Definition qsize (q : t) : Z := Z.of_nat (List.length (items q)).

Definition empty (q : t) : bool :=
  match items q with
  | [] => true
  | _ :: _ => false
  end.

(** A queue with [maxsize <= 0] is never full. *)
Definition full (q : t) : bool :=
  if maxsize q <=? 0 then false else maxsize q <=? qsize q.

(** What an awaited queue operation does when its task is resumed: it
    completes, or it stays suspended and the queue is as it was. *)
Inductive step (B : Type) : Type :=
| Done (q : t) (b : B)
| Suspended.

(** [await q.put(x)]: waits while the queue is full, then appends. *)
Definition put (q : t) (x : A) : step unit :=
  if full q then Suspended unit
  else Done unit {| maxsize := maxsize q; items := items q ++ [x] |} tt.

(** [await q.get()]: waits while the queue is empty, then pops the left
    end. *)
Definition get (q : t) : step A :=
  match items q with
  | [] => Suspended A
  | x :: rest => Done A {| maxsize := maxsize q; items := rest |} x
  end.

End Defs.

Arguments t A : clear implicits.
Arguments Done {A B} q b.
Arguments Suspended {A B}.

End Queue.

(** ** [asyncio.Task] *)

Module Task.

Inductive state : Type :=
| PENDING
| FINISHED (r : result unit).

(** A task whose coroutine is suspended at an [await]. [on_cancel] is what
    the coroutine does with the [CancelledError] thrown into it: it returns
    ([Ok tt]) or it lets an exception escape. *)
Record t : Type := {
  st : state;
  must_cancel : bool;
  on_cancel : result unit
}.

(** [task.cancel()]: a request, taken up when the task next runs; a
    finished task is left alone. *)
Definition cancel (k : t) : t * bool :=
  match st k with
  | PENDING =>
      ({| st := PENDING; must_cancel := true; on_cancel := on_cancel k |}, true)
  | FINISHED _ => (k, false)
  end.

(** The event loop runs the task once. *)
Definition wakeup (k : t) : t :=
  match st k with
  | PENDING =>
      if must_cancel k
      then {| st := FINISHED (on_cancel k); must_cancel := false;
              on_cancel := on_cancel k |}
      else k
  | FINISHED _ => k
  end.

(** [await task]: the awaiter gets the outcome of the task once it has
    finished ([Raise CancelledError] for a cancelled task) and stays
    suspended ([None]) while it has not. *)
Definition await (k : t) : t * option (result unit) :=
  let k' := wakeup k in
  match st k' with
  | FINISHED r => (k', Some r)
  | PENDING => (k', None)
  end.

End Task.

(** ** The application *)

(** One decoded telemetry reading, the dictionary [data_raw]. *)
Record snapshot : Type := {
  speed : float;
  distance : Z;
  calories : Z;
  time : Z
}.

(** The dictionary [data] carried by a [TreadmillUpdate] message, with its
    keys [speed], [distance], [calories], [duration] and [steps]. *)
Record display : Type := {
  speed_text : string;
  distance_text : string;
  calories_text : string;
  duration_text : string;
  steps_text : string
}.

(** The literal [0.415]: the double nearest to 415/1000. *)
Definition lit_0_415 : float := S754_finite false 7475975381435023 (-54).

(** The [steps] entry:
    [str(int(int(distance) / (int(USER_HEIGHT) / 100 * 0.415)))]. *)
Definition steps (USER_HEIGHT : number) (dist : Z) : result string :=
  h <- int_of USER_HEIGHT ;;
  a <- int_truediv h 100 ;;
  q <- int_div_float dist (float_mul a lit_0_415) ;;
  n <- int_of_float q ;;
  Ok (str_int n).

(** The body of one iteration of [watch_queue], from the snapshot to the
    dictionary that is posted. *)
Definition derive (USER_HEIGHT : number) (data_raw : snapshot) : result display :=
  let sp := format_f 5 2 (speed data_raw) in
  let di := format_d 4 (distance data_raw) in
  let ca := format_d 4 (calories data_raw) in
  td <- timedelta_of_seconds (time data_raw) ;;
  st <- steps USER_HEIGHT (distance data_raw) ;;
  Ok {| speed_text := sp;
        distance_text := di;
        calories_text := ca;
        duration_text := timedelta_str td;
        steps_text := st |}.


Definition float_5_2 : float := S754_finite false 5854679515581645 (-50).

Definition example_snapshot : snapshot :=
  {| speed := float_5_2; distance := 120; calories := 45; time := 3725 |}.

(** *** The controller, as the application uses it *)

Inductive call : Type :=
| Start
| Stop
| SetSpeed (level : Z).

(** *** Widgets *)

Record widgets : Type := {
  DurationDisplay : string;
  SpeedDisplay : string;
  CaloriesDisplay : string;
  DistanceDisplay : string;
  StepsDisplay : string
}.

(** *** Workers of the Textual worker manager *)

Inductive worker_state : Type :=
| RUNNING
| CANCELLED
| ERROR.

Record worker : Type := {
  group : string;
  state : worker_state
}.

Definition is_running (w : worker) : bool :=
  match state w with
  | RUNNING => true
  | _ => false
  end.

(** [Worker.cancel]. *)
Definition cancel_worker (w : worker) : worker :=
  match state w with
  | RUNNING => {| group := group w; state := CANCELLED |}
  | _ => w
  end.

Definition cancel_group (g : string) (ws : list worker) : list worker :=
  map (fun w => if String.eqb (group w) g then cancel_worker w else w) ws.

(** [WorkerManager.add_worker]: an exclusive worker first cancels the
    workers of its group. *)
Definition add_worker (w : worker) (exclusive : bool) (ws : list worker)
  : list worker :=
  (if exclusive && negb (String.eqb (group w) "")
   then cancel_group (group w) ws else ws) ++ [w].

(** *** The state of [TreadMillApp] *)

Record app : Type := {
  queue : Queue.t snapshot;
  controller : list call;
  workers : list worker;
  posted : list display;
  screen : widgets
}.

(** [compose]: the initial text of the five displays. *)
Definition compose : widgets :=
  {| DurationDisplay := "00:00:00";
     SpeedDisplay := "00.0";
     CaloriesDisplay := "000";
     DistanceDisplay := "0000";
     StepsDisplay := "0000" |}.

Definition new_app (telemetry_queue : Queue.t snapshot) : app :=
  {| queue := telemetry_queue;
     controller := [];
     workers := [];
     posted := [];
     screen := compose |}.

Definition call_controller (c : call) (a : app) : app :=
  {| queue := queue a;
     controller := controller a ++ [c];
     workers := workers a;
     posted := posted a;
     screen := screen a |}.

Definition start_treadmill (a : app) : app := call_controller Start a.

Definition stop_treadmill (a : app) : app := call_controller Stop a.

Definition increase_speed_treadmill (a : app) : app :=
  call_controller (SetSpeed 2) a.

Definition decrease_speed_treadmill (a : app) : app :=
  call_controller (SetSpeed 1) a.

(** [@on(Button.Pressed, "#id")]: the handler bound to a button id. *)
Definition on_button_pressed (id : string) (a : app) : app :=
  if String.eqb id "start" then start_treadmill a
  else if String.eqb id "stop" then stop_treadmill a
  else if String.eqb id "inc_speed" then increase_speed_treadmill a
  else if String.eqb id "dec_speed" then decrease_speed_treadmill a
  else a.

Inductive intent : Type :=
| IntentStart
| IntentStop
| IncreaseSpeed
| DecreaseSpeed.

(** The button that raises an intent. *)
Definition button_of (i : intent) : string :=
  match i with
  | IntentStart => "start"
  | IntentStop => "stop"
  | IncreaseSpeed => "inc_speed"
  | DecreaseSpeed => "dec_speed"
  end.

Definition dispatch (i : intent) (a : app) : app :=
  on_button_pressed (button_of i) a.

(** [on_treadmill_update]. *)
Definition on_treadmill_update (data : display) (a : app) : app :=
  {| queue := queue a;
     controller := controller a;
     workers := workers a;
     posted := posted a;
     screen :=
       {| DurationDisplay := duration_text data;
          SpeedDisplay := speed_text data;
          CaloriesDisplay := calories_text data;
          DistanceDisplay := distance_text data;
          StepsDisplay := steps_text data |} |}.

(** [on_mount]: [run_worker(self.watch_queue(), exclusive=True)], in the
    default group. *)
Definition run_worker (exclusive : bool) (a : app) : app :=
  {| queue := queue a;
     controller := controller a;
     workers :=
       add_worker {| group := "default"; state := RUNNING |} exclusive
                  (workers a);
     posted := posted a;
     screen := screen a |}.

Definition on_mount (a : app) : app := run_worker true a.

Fixpoint set_state (i : nat) (s : worker_state) (ws : list worker)
  {struct ws} : list worker :=
  match ws, i with
  | [], _ => []
  | w :: rest, O => {| group := group w; state := s |} :: rest
  | w :: rest, S j => w :: set_state j s rest
  end.

(** One iteration of [watch_queue] in worker [i]: a worker that is not
    running does nothing, a running one takes the next snapshot, if there is
    one, and posts its display; an exception ends the worker. *)
Definition watch_queue (USER_HEIGHT : number) (i : nat) (a : app) : app :=
  match nth_error (workers a) i with
  | Some w =>
      if is_running w then
        match Queue.get (queue a) with
        | Queue.Suspended => a
        | Queue.Done q data_raw =>
            match derive USER_HEIGHT data_raw with
            | Ok data =>
                {| queue := q;
                   controller := controller a;
                   workers := workers a;
                   posted := posted a ++ [data];
                   screen := screen a |}
            | Raise _ =>
                {| queue := q;
                   controller := controller a;
                   workers := set_state i ERROR (workers a);
                   posted := posted a;
                   screen := screen a |}
            end
        end
      else a
  | None => a
  end.

(** *** Producer, channel and consumer *)

Record pipeline : Type := {
  pending : list snapshot;
  channel : Queue.t snapshot;
  received : list snapshot
}.

(** [run]: [telemetry_queue = asyncio.Queue(maxsize=5)]. *)
Definition telemetry_queue : Queue.t snapshot := Queue.create 5.


(** Modelled from the spec: [TreadmillController.subscribe] of
    [src/treadmill/controller.py], absent from the sources. For each
    notification it decodes a snapshot and awaits [put] on the channel; the
    snapshot stays with the producer while the [put] is suspended. *)
Definition producer_step (s : pipeline) : pipeline :=
  match pending s with
  | [] => s
  | x :: rest =>
      match Queue.put (channel s) x with
      | Queue.Done q _ =>
          {| pending := rest; channel := q; received := received s |}
      | Queue.Suspended => s
      end
  end.

(** [data_raw = await self.queue.get()] of [watch_queue]. *)
Definition consumer_step (s : pipeline) : pipeline :=
  match Queue.get (channel s) with
  | Queue.Done q x =>
      {| pending := pending s; channel := q; received := received s ++ [x] |}
  | Queue.Suspended => s
  end.





(** *** The application under an arbitrary schedule *)

Record system : Type := {
  ui : app;
  produced : list snapshot
}.

Inductive event : Type :=
| Mount
| Notify (x : snapshot)
| Resume (i : nat).

Definition with_queue (q : Queue.t snapshot) (a : app) : app :=
  {| queue := q;
     controller := controller a;
     workers := workers a;
     posted := posted a;
     screen := screen a |}.

(** [Notify x]: the producer's [put] of [x], recorded once it completes. *)
Definition system_step (USER_HEIGHT : number) (s : system) (e : event)
  : system :=
  match e with
  | Mount => {| ui := on_mount (ui s); produced := produced s |}
  | Notify x =>
      match Queue.put (queue (ui s)) x with
      | Queue.Done q _ =>
          {| ui := with_queue q (ui s); produced := produced s ++ [x] |}
      | Queue.Suspended => s
      end
  | Resume i =>
      {| ui := watch_queue USER_HEIGHT i (ui s); produced := produced s |}
  end.

Definition run_system (USER_HEIGHT : number) (es : list event) : system :=
  fold_left (system_step USER_HEIGHT) es
            {| ui := new_app telemetry_queue; produced := [] |}.

Definition count_running (ws : list worker) : nat :=
  List.length (filter is_running ws).

(** The displays among the outcomes of [derive]. *)
Fixpoint oks {A : Type} (rs : list (result A)) : list A :=
  match rs with
  | [] => []
  | Ok a :: rest => a :: oks rest
  | Raise _ :: rest => oks rest
  end.

(** *** Teardown of [run] *)

(** Modelled from the spec: [TreadmillController.subscribe] of
    [src/treadmill/controller.py], absent from the sources. A long-running
    task that is cancellable and, upon cancellation, returns promptly: the
    cancellation is a normal, silent exit. *)
Definition subscribe : Task.t :=
  {| Task.st := Task.PENDING;
     Task.must_cancel := false;
     Task.on_cancel := Ok tt |}.

(** The end of [run]: [task.cancel()], then [await task]. The second
    component is what [run] does next: it returns, it raises, or it is still
    suspended ([None]). *)
Definition run_teardown (task : Task.t) : Task.t * option (result unit) :=
  let (task', _) := Task.cancel task in
  Task.await task'.

(** ** Reading the display strings *)

Definition is_digit (c : ascii) : bool :=
  (48 <=? nat_of_ascii c)%nat && (nat_of_ascii c <=? 57)%nat.

Fixpoint all_digits (s : string) : bool :=
  match s with
  | EmptyString => true
  | String c rest => is_digit c && all_digits rest
  end.

(** The number a string of decimal digits stands for, given the value of
    the digits read before it. *)
Fixpoint read_digits (acc : Z) (s : string) : Z :=
  match s with
  | EmptyString => acc
  | String c rest => read_digits (10 * acc + (Z.of_nat (nat_of_ascii c) - 48)) rest
  end.

Definition number_of (s : string) : Z := read_digits 0 s.

(** A text follows a pattern such as ["00.00"]: same length, a digit where
    the pattern has [0], the same character elsewhere. *)
Fixpoint follows (pattern text : string) : bool :=
  match pattern, text with
  | EmptyString, EmptyString => true
  | String p ps, String c cs =>
      (if Ascii.eqb p "0" then is_digit c else Ascii.eqb p c) && follows ps cs
  | _, _ => false
  end.

Fixpoint mentions (c : ascii) (s : string) : bool :=
  match s with
  | EmptyString => false
  | String c' rest => Ascii.eqb c c' || mentions c rest
  end.

Fixpoint starts_with (needle s : string) : bool :=
  match needle, s with
  | EmptyString, _ => true
  | String a needle', String b s' => Ascii.eqb a b && starts_with needle' s'
  | String _ _, EmptyString => false
  end.

(** [needle in s]. *)
Fixpoint contains (needle s : string) : bool :=
  starts_with needle s ||
  match s with
  | EmptyString => false
  | String _ rest => contains needle rest
  end.

(** The hundredths shown for a speed that is finite and not negative. *)
Definition hundredths (x : float) : option Z :=
  match x with
  | S754_zero false => Some 0
  | S754_finite false m e => Some (scaled_decimal 2 m e)
  | _ => None
  end.

(** ** The value of a double *)

Module Binary64.

Definition F2R (m e : Z) : R := (IZR m * powerRZ 2 e)%R.

(** The unit roundoff. *)
Definition u : R := (/ IZR (2 ^ 53))%R.

(** A shift record places a real number: on its mantissa, below, at or
    above the half of the next unit. *)
Definition located (mrs : shr_record) (x : R) : Prop :=
  match shr_r mrs, shr_s mrs with
  | false, false => x = IZR (shr_m mrs)
  | false, true => (IZR (shr_m mrs) < x < IZR (shr_m mrs) + / 2)%R
  | true, false => x = (IZR (shr_m mrs) + / 2)%R
  | true, true => (IZR (shr_m mrs) + / 2 < x < IZR (shr_m mrs) + 1)%R
  end.

End Binary64.

(** ** The steps estimate in exact arithmetic *)

(** The spec's [floor(distance / (userHeightCm/100 * 0.415))] for a height
    [hn / hd] centimetres: the quotient is
    [100000 * distance * hd / (415 * hn)]. *)
Definition steps_exact (hn hd : Z) (dist : Z) : Z :=
  (100000 * dist * hd) / (415 * hn).

(** ** Notions used in the statements *)

(** One snapshot on the screen: the dictionary built by [watch_queue],
    posted and handled by [on_treadmill_update]. *)
Definition render (USER_HEIGHT : number) (data_raw : snapshot) (a : app)
  : result app :=
  data <- derive USER_HEIGHT data_raw ;;
  Ok (on_treadmill_update data a).

(** The clock ["%d:%02d:%02d"] of a number of seconds. *)
Definition clock (s : Z) : string :=
  str_int (s / 60 / 60) ++ ":" ++ format_d 2 (s / 60 mod 60)
  ++ ":" ++ format_d 2 (s mod 60).

Definition in_default (w : worker) : Prop := group w = "default"%string.

(** What every schedule of the application preserves: the workers are in
    the default group, at most one runs, and the messages posted are the
    displays of the snapshots taken from the queue. *)
Definition system_inv (USER_HEIGHT : number) (s : system) : Prop :=
  Forall in_default (workers (ui s)) /\
  (count_running (workers (ui s)) <= 1)%nat /\
  exists taken,
    (taken ++ Queue.items (queue (ui s)))%list = produced s /\
    posted (ui s) = oks (map (derive USER_HEIGHT) taken).

(** The invariant of the pipeline started on [xs]. *)
Definition pipeline_inv (xs : list snapshot) (s : pipeline) : Prop :=
  (received s ++ Queue.items (channel s) ++ pending s)%list = xs /\
  (List.length (Queue.items (channel s)) <= 5)%nat /\
  Queue.maxsize (channel s) = 5.

Definition float_175_5 : float := S754_finite false 6174857301590016 (-45).

Definition float_128 : float := S754_finite false 4503599627370496 (-45).

(** A stopped treadmill after 39591 m. *)
Definition idle_snapshot : snapshot :=
  {| speed := S754_zero false; distance := 39591; calories := 0; time := 0 |}.


(** A snapshot too wide for every display. *)
Definition wide_snapshot : snapshot :=
  {| speed := float_128; distance := 12345; calories := 10000;
     time := 90061 |}.

(** ** Reading a duration back *)

(** The text before the first [c] and, if there is one, the text after it. *)
Fixpoint split_at (c : ascii) (s : string) : string * option string :=
  match s with
  | EmptyString => (EmptyString, None)
  | String x rest =>
      if Ascii.eqb x c then (EmptyString, Some rest)
      else let (a, b) := split_at c rest in (String x a, b)
  end.

(** A non-empty string of digits as a number. *)
Definition read_number (s : string) : option Z :=
  match s with
  | EmptyString => None
  | String _ _ => if all_digits s then Some (number_of s) else None
  end.

(** The seconds a clock ["H:MM:SS"] stands for. *)
Definition read_clock (s : string) : option Z :=
  match split_at ":" s with
  | (hh, Some r) =>
      match split_at ":" r with
      | (mm, Some ss) =>
          match read_number hh, read_number mm, read_number ss with
          | Some h, Some m, Some sec => Some (h * 3600 + m * 60 + sec)
          | _, _, _ => None
          end
      | (_, None) => None
      end
  | (_, None) => None
  end.

(** The seconds a duration stands for: a clock, or a day count, a word and
    a clock separated by spaces. *)
Definition read_duration (s : string) : option Z :=
  match split_at " " s with
  | (c, None) => read_clock c
  | (d, Some r) =>
      match split_at " " r with
      | (_, Some c) =>
          match read_number d, read_clock c with
          | Some n, Some x => Some (n * 86400 + x)
          | _, _ => None
          end
      | (_, None) => None
      end
  end.

(** ** Sequences of events of the user interface *)

(** The buttons with the given ids are pressed one after the other. *)
Definition press_all (ids : list string) (a : app) : app :=
  fold_left (fun a id => on_button_pressed id a) ids a.

(** The updates are handled one after the other. *)
Definition handle_all (ds : list display) (a : app) : app :=
  fold_left (fun a data => on_treadmill_update data a) ds a.

(** The four calls the handlers make. *)
Definition handler_call (c : call) : Prop :=
  c = Start \/ c = Stop \/ c = SetSpeed 2 \/ c = SetSpeed 1.

(** An application with one running worker and the example snapshot in
    its queue. *)
Definition mounted_app : app :=
  {| queue := {| Queue.maxsize := 5; Queue.items := [example_snapshot] |};
     controller := [];
     workers := [{| group := "default"; state := RUNNING |}];
     posted := [];
     screen := compose |}.

(** ** Sign and magnitude of a double *)


Definition sign_bit (x : float) : bool :=
  match x with
  | S754_zero s => s
  | S754_infinity s => s
  | S754_nan => false
  | S754_finite s _ _ => s
  end.

Definition is_finite (x : float) : bool :=
  match x with
  | S754_zero _ => true
  | S754_finite _ _ _ => true
  | _ => false
  end.

(** The absolute value of a finite double, as a real number. *)
Definition magnitude (x : float) : R :=
  match x with
  | S754_finite _ m e => Binary64.F2R (Z.pos m) e
  | _ => 0%R
  end.

(** The hundredths [format_f 5 2] writes for a finite double. *)
Definition shown_hundredths (x : float) : Z :=
  match x with
  | S754_finite _ m e => scaled_decimal 2 m e
  | _ => 0
  end.

(** * Facts *)

Example lit_0_415_nearest :
  SFdiv prec emax (exact_int 415) (exact_int 1000) = lit_0_415.
Proof. vm_compute. reflexivity. Qed.

Example float_5_2_nearest :
  SFdiv prec emax (exact_int 52) (exact_int 10) = float_5_2.
Proof. vm_compute. reflexivity. Qed.
(** The formats on a few values: ties go to the even digit, the sign comes
    before the padding, and [nan] and [inf] are padded as well. *)

Example format_f_ties :
  format_f 5 2 (S754_finite false 1 (-3)) = "00.12" /\
  format_f 5 2 (S754_finite false 3 (-3)) = "00.38".
Proof. vm_compute. split; reflexivity. Qed.

Example format_f_special :
  format_f 5 2 S754_nan = "00nan" /\
  format_f 5 2 (S754_infinity true) = "-0inf" /\
  format_f 5 2 (S754_zero true) = "-0.00".
Proof. vm_compute. repeat split. Qed.

Example format_d_signed :
  format_d 4 (-5) = "-005" /\ format_d 4 12345 = "12345".
Proof. vm_compute. split; reflexivity. Qed.

Example timedelta_str_days :
  timedelta_str {| days := 2; seconds := 5; microseconds := 0 |}
  = "2 days, 0:00:05" /\
  timedelta_of_seconds (-1)
  = Ok {| days := -1; seconds := 86399; microseconds := 0 |} /\
  timedelta_of_seconds (86400 * 1000000000) = Raise OverflowError.
Proof. vm_compute. repeat split. Qed.

(** An integral quotient can also come out exact: 185 cm and 61420 m give
    80000. *)
Example steps_exact_hit :
  steps (Int 185) 61420 = Ok "80000" /\ steps_exact 185 1 61420 = 80000.
Proof. vm_compute. split; reflexivity. Qed.


(** ** Rounding to nearest even in [SpecFloat]

    The operations of [SpecFloat] shift a mantissa right, keep a round bit
    and a sticky bit, and round to nearest even. In the normal range the
    result is within a relative error of [2^-53] of the exact value. *)

Module Binary64Facts.

Import Binary64.

Local Open Scope R_scope.

Lemma IZR_xO p : IZR (Z.pos p~0) = 2 * IZR (Z.pos p).
Proof. rewrite Pos2Z.inj_xO, mult_IZR. reflexivity. Qed.

Lemma IZR_xI p : IZR (Z.pos p~1) = 2 * IZR (Z.pos p) + 1.
Proof. rewrite Pos2Z.inj_xI, plus_IZR, mult_IZR. reflexivity. Qed.

Lemma shr_1_located mrs x :
  (0 <= shr_m mrs)%Z -> located mrs x ->
  located (shr_1 mrs) (x / 2) /\ shr_m (shr_1 mrs) = (shr_m mrs / 2)%Z.
Proof.
  destruct mrs as [m r s]. unfold located. simpl. intros Hm H.
  destruct m as [|p|p]; [ | | lia ].
  - destruct r, s; simpl in *; split; try reflexivity; lra.
  - destruct p as [p|p|]; simpl shr_m in *.
    + rewrite IZR_xI in H. split.
      * destruct r, s; simpl in *; lra.
      * rewrite Pos2Z.inj_xI. apply (Z.div_unique _ 2 _ 1); lia.
    + rewrite IZR_xO in H. split.
      * destruct r, s; simpl in *; lra.
      * rewrite Pos2Z.inj_xO. apply (Z.div_unique _ 2 _ 0); lia.
    + split.
      * destruct r, s; simpl in *; lra.
      * reflexivity.
Qed.

Lemma iter_shr_1_located n : forall mrs x,
  (0 <= shr_m mrs)%Z -> located mrs x ->
  located (iter_pos shr_1 n mrs) (x / IZR (Z.pow_pos 2 n)) /\
  shr_m (iter_pos shr_1 n mrs) = (shr_m mrs / Z.pow_pos 2 n)%Z.
Proof.
  induction n as [n IH|n IH|]; intros mrs x Hm H; simpl iter_pos.
  - destruct (shr_1_located mrs x Hm H) as [H1 E1].
    assert (Hm1 : (0 <= shr_m (shr_1 mrs))%Z) by (rewrite E1; apply Z.div_pos; lia).
    destruct (IH _ _ Hm1 H1) as [H2 E2].
    assert (Hm2 : (0 <= shr_m (iter_pos shr_1 n (shr_1 mrs)))%Z)
      by (rewrite E2; apply Z.div_pos; lia).
    destruct (IH _ _ Hm2 H2) as [H3 E3].
    assert (P : Z.pow_pos 2 n~1 = (2 * Z.pow_pos 2 n * Z.pow_pos 2 n)%Z).
    { rewrite !Z.pow_pos_fold, (Pos2Z.inj_xI n).
      replace (2 * Z.pos n + 1)%Z with (1 + Z.pos n + Z.pos n)%Z by lia.
      rewrite !Z.pow_add_r by lia. lia. }
    assert (Hp : (0 < Z.pow_pos 2 n)%Z) by (rewrite Z.pow_pos_fold; lia).
    split.
    + replace (x / IZR (Z.pow_pos 2 n~1)) with (x / 2 / IZR (Z.pow_pos 2 n) / IZR (Z.pow_pos 2 n)); [exact H3|].
      rewrite P, !mult_IZR. field. apply not_0_IZR. lia.
    + rewrite E3, E2, E1, P, !Z.div_div by lia. f_equal. lia.
  - destruct (IH _ _ Hm H) as [H2 E2].
    assert (Hm2 : (0 <= shr_m (iter_pos shr_1 n mrs))%Z)
      by (rewrite E2; apply Z.div_pos; [lia | rewrite Z.pow_pos_fold; lia]).
    destruct (IH _ _ Hm2 H2) as [H3 E3].
    assert (P : Z.pow_pos 2 n~0 = (Z.pow_pos 2 n * Z.pow_pos 2 n)%Z).
    { rewrite !Z.pow_pos_fold, (Pos2Z.inj_xO n).
      replace (2 * Z.pos n)%Z with (Z.pos n + Z.pos n)%Z by lia.
      rewrite Z.pow_add_r by lia. reflexivity. }
    assert (Hp : (0 < Z.pow_pos 2 n)%Z) by (rewrite Z.pow_pos_fold; lia).
    split.
    + replace (x / IZR (Z.pow_pos 2 n~0)) with (x / IZR (Z.pow_pos 2 n) / IZR (Z.pow_pos 2 n)); [exact H3|].
      rewrite P, !mult_IZR. field. apply not_0_IZR. lia.
    + rewrite E3, E2, P, !Z.div_div by lia. reflexivity.
  - destruct (shr_1_located mrs x Hm H) as [H1 E1]. split.
    + replace (IZR (Z.pow_pos 2 1)) with 2 by reflexivity. exact H1.
    + rewrite E1. reflexivity.
Qed.

Lemma IZR_pow2 k : (0 <= k)%Z -> IZR (2 ^ k) = powerRZ 2 k.
Proof.
  destruct k as [|p|p]; intros H; [reflexivity | | lia].
  rewrite <- Z.pow_pos_fold. apply Zpower_pos_powerRZ.
Qed.

Lemma pow2_pos e : 0 < powerRZ 2 e.
Proof. apply powerRZ_lt. lra. Qed.

Lemma pow2_add a b : powerRZ 2 (a + b) = powerRZ 2 a * powerRZ 2 b.
Proof. apply powerRZ_add. lra. Qed.

Lemma digits2_bounds p :
  (2 ^ (Z.pos (digits2_pos p) - 1) <= Z.pos p < 2 ^ Z.pos (digits2_pos p))%Z.
Proof.
  induction p as [p IH|p IH|]; simpl digits2_pos.
  - rewrite Pos2Z.inj_succ, (Pos2Z.inj_xI p).
    replace (Z.succ (Z.pos (digits2_pos p)) - 1)%Z
      with (Z.succ (Z.pos (digits2_pos p) - 1)) by lia.
    rewrite !Z.pow_succ_r by lia. lia.
  - rewrite Pos2Z.inj_succ, (Pos2Z.inj_xO p).
    replace (Z.succ (Z.pos (digits2_pos p)) - 1)%Z
      with (Z.succ (Z.pos (digits2_pos p) - 1)) by lia.
    rewrite !Z.pow_succ_r by lia. lia.
  - simpl. lia.
Qed.

Lemma digits2_unique p k :
  (2 ^ (k - 1) <= Z.pos p < 2 ^ k)%Z -> Z.pos (digits2_pos p) = k.
Proof.
  intros [Hl Hu]. pose proof (digits2_bounds p) as [Bl Bu].
  assert (0 < k)%Z.
  { destruct (Z_lt_le_dec 0 k) as [|Hk]; [assumption|].
    destruct (Z.eq_dec k 0) as [->|]; [simpl in Hu; lia|].
    rewrite (Z.pow_neg_r 2 k) in Hu by lia. lia. }
  destruct (Z_lt_le_dec (Z.pos (digits2_pos p)) k) as [Hlt|Hge].
  - assert (2 ^ Z.pos (digits2_pos p) <= 2 ^ (k - 1))%Z
      by (apply Z.pow_le_mono_r; lia). lia.
  - destruct (Z.eq_dec (Z.pos (digits2_pos p)) k) as [|Hne]; [assumption|].
    assert (2 ^ k <= 2 ^ (Z.pos (digits2_pos p) - 1))%Z
      by (apply Z.pow_le_mono_r; lia). lia.
Qed.

Lemma shr_fexp_normal mx ex lx x d :
  (0 < mx)%Z -> Zdigits2 mx = d -> (53 <= d)%Z -> (-1074 <= ex + d - 53)%Z ->
  located (shr_record_of_loc mx lx) x ->
  exists mrs, shr_fexp prec emax mx ex lx = (mrs, (ex + d - 53)%Z) /\
    located mrs (x / IZR (2 ^ (d - 53))) /\
    shr_m mrs = (mx / 2 ^ (d - 53))%Z.
Proof.
  intros Hm Hd H53 Hn H. unfold shr_fexp. rewrite Hd.
  assert (Hf : (fexp prec emax (d + ex) - ex = d - 53)%Z).
  { unfold fexp, emin, prec, emax. lia. }
  rewrite Hf. unfold shr.
  assert (Hm0 : shr_m (shr_record_of_loc mx lx) = mx)
    by (destruct lx as [|[| |]]; reflexivity).
  destruct (d - 53)%Z as [|k|k] eqn:Ek; [ | | lia].
  - exists (shr_record_of_loc mx lx). repeat split.
    + f_equal. lia.
    + simpl. replace (x / 1) with x by field. exact H.
    + rewrite Hm0, Z.pow_0_r, Z.div_1_r. reflexivity.
  - destruct (iter_shr_1_located k (shr_record_of_loc mx lx) x) as [H1 E1];
      [rewrite Hm0; lia | exact H | ].
    exists (iter_pos shr_1 k (shr_record_of_loc mx lx)). repeat split.
    + f_equal. lia.
    + rewrite <- Z.pow_pos_fold. exact H1.
    + rewrite E1, Hm0, Z.pow_pos_fold. reflexivity.
Qed.

Lemma round_nearest_even_located mrs x :
  located mrs x ->
  (shr_m mrs <= round_nearest_even (shr_m mrs) (loc_of_shr_record mrs)
             <= shr_m mrs + 1)%Z /\
  Rabs (IZR (round_nearest_even (shr_m mrs) (loc_of_shr_record mrs)) - x) <= / 2.
Proof.
  destruct mrs as [m r s]. unfold located. simpl.
  destruct r, s; simpl; intros H.
  - split; [lia|]. rewrite plus_IZR. apply Rabs_le. lra.
  - destruct (Z.even m); (split; [lia|]); rewrite ?plus_IZR; apply Rabs_le; lra.
  - split; [lia|]. apply Rabs_le. lra.
  - split; [lia|]. apply Rabs_le. lra.
Qed.


Lemma Zdigits2_pos_bounds m d :
  (0 < m)%Z -> Zdigits2 m = d -> (2 ^ (d - 1) <= m < 2 ^ d)%Z.
Proof.
  destruct m as [|p|p]; try lia. intros _ <-. apply digits2_bounds.
Qed.

Lemma binary_round_aux_correct s mx ex lx x d :
  (0 < mx)%Z -> Zdigits2 mx = d -> (53 <= d)%Z ->
  (-1074 <= ex + d - 53)%Z -> (ex + d <= 1023)%Z ->
  located (shr_record_of_loc mx lx) x ->
  exists m e,
    binary_round_aux prec emax s mx ex lx = S754_finite s m e /\
    Z.pos (digits2_pos m) = 53%Z /\
    (ex + d - 53 <= e <= ex + d - 52)%Z /\
    Rabs (F2R (Z.pos m) e - x * powerRZ 2 ex)
      <= x * powerRZ 2 ex * / IZR (2 ^ 53).
Proof.
  intros Hm Hd H53 Hlo Hhi Hx.
  destruct (shr_fexp_normal mx ex lx x d Hm Hd H53 Hlo Hx) as (mrs & E1 & L1 & M1).
  pose proof (Zdigits2_pos_bounds mx d Hm Hd) as [Bl Bu].
  assert (Hk : (0 < 2 ^ (d - 53))%Z) by (apply Z.pow_pos_nonneg; lia).
  assert (Hsplit : (2 ^ d = 2 ^ 53 * 2 ^ (d - 53))%Z).
  { rewrite <- Z.pow_add_r by lia. f_equal. lia. }
  assert (Hsplit' : (2 ^ (d - 1) = 2 ^ 52 * 2 ^ (d - 53))%Z).
  { rewrite <- Z.pow_add_r by lia. f_equal. lia. }
  assert (Bm : (2 ^ 52 <= shr_m mrs < 2 ^ 53)%Z).
  { rewrite M1. split.
    - apply Z.div_le_lower_bound; lia.
    - apply Z.div_lt_upper_bound; lia. }
  destruct (round_nearest_even_located mrs _ L1) as [Br Er].
  set (rm := round_nearest_even (shr_m mrs) (loc_of_shr_record mrs)) in *.
  set (x' := x / IZR (2 ^ (d - 53))) in *.
  assert (Hx' : x * powerRZ 2 ex = x' * powerRZ 2 (ex + d - 53)).
  { unfold x'. replace (ex + d - 53)%Z with (ex + (d - 53))%Z by lia.
    rewrite pow2_add, <- (IZR_pow2 (d - 53)) by lia. field. apply not_0_IZR. lia. }
  assert (Hx'lo : IZR (2 ^ 52) <= x').
  { apply Rle_trans with (IZR (shr_m mrs)); [apply IZR_le; lia|].
    revert L1. unfold located.
    destruct (shr_r mrs), (shr_s mrs); intros; lra. }
  assert (Hrm : (0 < rm)%Z) by lia.
  set (d2 := Zdigits2 rm).
  assert (Hd2 : (d2 = 53 /\ rm < 2 ^ 53 \/ d2 = 54 /\ rm = 2 ^ 53)%Z).
  { destruct (Z_lt_le_dec rm (2 ^ 53)) as [Hlt|Hge].
    - left. split; [|assumption]. unfold d2. destruct rm as [|p|p]; try lia.
      apply digits2_unique. simpl Z.sub. lia.
    - right. assert (rm = 2 ^ 53)%Z as Erm by lia. split; [|assumption].
      unfold d2. rewrite Erm. reflexivity. }
  assert (L2 : located (shr_record_of_loc rm loc_Exact) (IZR rm)) by reflexivity.
  destruct (shr_fexp_normal rm (ex + d - 53) loc_Exact (IZR rm) d2 Hrm eq_refl)
    as (mrs2 & E2 & _ & M2); [lia | lia | exact L2 |].
  unfold binary_round_aux. rewrite E1. fold rm. rewrite E2.
  assert (Hval : exists m, shr_m mrs2 = Z.pos m /\ Z.pos (digits2_pos m) = 53%Z /\
            F2R (Z.pos m) (ex + d - 53 + d2 - 53) = IZR rm * powerRZ 2 (ex + d - 53)).
  { destruct Hd2 as [[-> Hlt]|[-> Erm]].
    - replace (53 - 53)%Z with 0%Z in M2 by lia.
      rewrite Z.pow_0_r, Z.div_1_r in M2.
      destruct rm as [|p|p] eqn:Ep; try lia. exists p. repeat split.
      + exact M2.
      + apply digits2_unique. simpl Z.sub. lia.
      + unfold F2R. do 2 f_equal. lia.
    - rewrite Erm in M2. exists (Z.to_pos (2 ^ 52)). repeat split.
      + rewrite M2. reflexivity.
      + unfold F2R. rewrite Erm.
        replace (ex + d - 53 + 54 - 53)%Z with (1 + (ex + d - 53))%Z by lia.
        rewrite pow2_add. simpl. lra. }
  destruct Hval as (m & Em & Dm & Vm). rewrite Em.
  assert (Hov : (ex + d - 53 + d2 - 53 <=? emax - prec)%Z = true).
  { apply Z.leb_le. unfold emax, prec. lia. }
  rewrite Hov. exists m, (ex + d - 53 + d2 - 53)%Z. repeat split.
  - exact Dm.
  - lia.
  - lia.
  - rewrite Vm, Hx'.
    replace (IZR rm * powerRZ 2 (ex + d - 53) - x' * powerRZ 2 (ex + d - 53))
      with ((IZR rm - x') * powerRZ 2 (ex + d - 53)) by ring.
    pose proof (pow2_pos (ex + d - 53)) as Hp.
    rewrite Rabs_mult, (Rabs_pos_eq (powerRZ 2 (ex + d - 53))) by lra.
    replace (x' * powerRZ 2 (ex + d - 53) * / IZR (2 ^ 53))
      with (x' * / IZR (2 ^ 53) * powerRZ 2 (ex + d - 53)) by ring.
    apply Rmult_le_compat_r; [lra|].
    apply Rle_trans with (/ 2); [exact Er|].
    change (IZR (2 ^ 53)) with (2 * IZR (2 ^ 52)).
    assert (0 < IZR (2 ^ 52)) by (apply IZR_lt; lia).
    rewrite Rinv_mult. 
    apply Rmult_le_reg_r with (IZR (2 ^ 52)); [assumption|].
    field_simplify; lra.
Qed.


(** The product of two normal doubles. *)
Lemma SFmul_correct mx ex my ey :
  Z.pos (digits2_pos mx) = 53%Z -> Z.pos (digits2_pos my) = 53%Z ->
  (-1074 <= ex + ey + 52)%Z -> (ex + ey + 106 <= 1023)%Z ->
  exists m e,
    SFmul prec emax (S754_finite false mx ex) (S754_finite false my ey)
      = S754_finite false m e /\
    Z.pos (digits2_pos m) = 53%Z /\
    (ex + ey + 52 <= e <= ex + ey + 54)%Z /\
    Rabs (F2R (Z.pos m) e - F2R (Z.pos mx) ex * F2R (Z.pos my) ey)
      <= F2R (Z.pos mx) ex * F2R (Z.pos my) ey * / IZR (2 ^ 53).
Proof.
  intros Dx Dy Hlo Hhi.
  pose proof (digits2_bounds mx) as Bx. pose proof (digits2_bounds my) as By.
  rewrite Dx in Bx. rewrite Dy in By.
  assert (Bp : (2 ^ 104 <= Z.pos (mx * my) < 2 ^ 106)%Z).
  { rewrite Pos2Z.inj_mul. simpl Z.sub in Bx, By. split; nia. }
  set (d := Zdigits2 (Z.pos (mx * my))).
  assert (Hd : (d = 105 \/ d = 106)%Z).
  { unfold d, Zdigits2.
    destruct (Z_lt_le_dec (Z.pos (mx * my)) (2 ^ 105)).
    - left. apply digits2_unique. simpl Z.sub. lia.
    - right. apply digits2_unique. simpl Z.sub. lia. }
  destruct (binary_round_aux_correct false (Z.pos (mx * my)) (ex + ey) loc_Exact
              (IZR (Z.pos (mx * my))) d) as (m & e & E & Dm & Be & Err);
    try reflexivity; try lia.
  exists m, e. simpl SFmul. rewrite E. repeat split; try assumption; try lia.
  replace (F2R (Z.pos mx) ex * F2R (Z.pos my) ey)
    with (IZR (Z.pos (mx * my)) * powerRZ 2 (ex + ey)); [exact Err|].
  unfold F2R. rewrite Pos2Z.inj_mul, mult_IZR, pow2_add. ring.
Qed.


Lemma new_location_located m2 q r :
  (0 < m2)%Z -> (0 <= r < m2)%Z ->
  located (shr_record_of_loc q (new_location m2 r))
          (IZR (m2 * q + r) / IZR m2).
Proof.
  intros Hm Hr.
  assert (HM : 0 < IZR m2) by (apply IZR_lt; lia).
  assert (Hx : IZR (m2 * q + r) / IZR m2 = IZR q + IZR r / IZR m2).
  { rewrite plus_IZR, mult_IZR. field. lra. }
  rewrite Hx. set (t := IZR r / IZR m2).
  assert (Ht : t * IZR m2 = IZR r) by (unfold t; field; lra).
  assert (Hloc : new_location m2 r =
                 if (r =? 0)%Z then loc_Exact
                 else loc_Inexact (2 * r ?= m2)%Z).
  { unfold new_location, new_location_even, new_location_odd.
    destruct (Z.even m2) eqn:Ev; [reflexivity|].
    destruct (r =? 0)%Z; [reflexivity|]. f_equal.
    destruct (2 * r + 1 ?= m2)%Z eqn:C1; destruct (2 * r ?= m2)%Z eqn:C2;
      try reflexivity;
      rewrite ?Z.compare_lt_iff, ?Z.compare_gt_iff, ?Z.compare_eq_iff in *;
      try lia.
    rewrite <- Z.negb_odd in Ev. apply negb_false_iff in Ev.
    rewrite <- C2, Z.odd_mul in Ev. discriminate. }
  rewrite Hloc. destruct (Z.eqb_spec r 0) as [->|Hr0].
  - unfold located. simpl. unfold t. rewrite Rdiv_0_l. lra.
  - assert (0 < IZR r) by (apply IZR_lt; lia).
    assert (IZR r < IZR m2) by (apply IZR_lt; lia).
    destruct (Z.compare_spec (2 * r) m2) as [C|C|C]; unfold located; simpl.
    + apply (f_equal IZR) in C. rewrite mult_IZR in C. nra.
    + apply IZR_lt in C. rewrite mult_IZR in C. split; nra.
    + apply IZR_lt in C. rewrite mult_IZR in C. split; nra.
Qed.

(** The quotient of two positive binary numbers whose mantissas need not be
    normalised, as long as the dividend is not wider than the divisor by
    more than 53 bits. *)
Lemma SFdiv_correct m1 e1 m2 e2 :
  let d1 := Z.pos (digits2_pos m1) in
  let d2 := Z.pos (digits2_pos m2) in
  let e' := (d1 + e1 - (d2 + e2) - 53)%Z in
  (d1 <= 53 + d2)%Z -> (-1074 <= e')%Z -> (e' + 54 <= 1023)%Z ->
  exists m e,
    SFdiv prec emax (S754_finite false m1 e1) (S754_finite false m2 e2)
      = S754_finite false m e /\
    Z.pos (digits2_pos m) = 53%Z /\
    (e' <= e <= e' + 2)%Z /\
    Rabs (F2R (Z.pos m) e - F2R (Z.pos m1) e1 / F2R (Z.pos m2) e2)
      <= F2R (Z.pos m1) e1 / F2R (Z.pos m2) e2 * / IZR (2 ^ 53).
Proof.
  intros d1 d2 e' Hd Hlo Hhi.
  pose proof (digits2_bounds m1) as B1. pose proof (digits2_bounds m2) as B2.
  fold d1 in B1. fold d2 in B2.
  assert (Hd1 : (0 < d1)%Z) by (unfold d1; lia).
  assert (Hd2 : (0 < d2)%Z) by (unfold d2; lia).
  set (s := (53 + d2 - d1)%Z).
  unfold SFdiv, SFdiv_core_binary, Zdigits2. fold d1 d2. simpl xorb.
  assert (He' : Z.min (fexp prec emax (d1 + e1 - (d2 + e2))) (e1 - e2) = e').
  { unfold fexp, emin, prec, emax, e'. lia. }
  rewrite He'.
  assert (Hs : (e1 - e2 - e' = s)%Z) by (unfold e', s; lia).
  rewrite Hs.
  assert (Hm' : match s with
                | Z.pos _ => Z.shiftl (Z.pos m1) s
                | 0%Z => Z.pos m1
                | Z.neg _ => 0%Z
                end = (Z.pos m1 * 2 ^ s)%Z).
  { assert (0 <= s)%Z by (unfold s; lia).
    destruct s as [|p|p] eqn:Es; [lia | | lia].
    apply Z.shiftl_mul_pow2. lia. }
  rewrite Hm'. set (m' := (Z.pos m1 * 2 ^ s)%Z).
  pose proof (Z_div_mod m' (Z.pos m2) eq_refl) as Hdm.
  destruct (Z.div_eucl m' (Z.pos m2)) as [q r]. destruct Hdm as [Eq Hr].
  assert (Hps : (0 < 2 ^ s)%Z) by (apply Z.pow_pos_nonneg; unfold s; lia).
  assert (Hp2 : (0 < 2 ^ (d2 - 1))%Z) by (apply Z.pow_pos_nonneg; lia).
  assert (E2 : (2 ^ d2 = 2 * 2 ^ (d2 - 1))%Z).
  { replace d2 with (Z.succ (d2 - 1)) at 1 by lia. apply Z.pow_succ_r. lia. }
  assert (Elo : (2 ^ (d1 - 1) * 2 ^ s = 2 ^ 53 * 2 ^ (d2 - 1))%Z).
  { rewrite <- !Z.pow_add_r by (unfold s; lia). f_equal. unfold s. lia. }
  assert (Ehi : (2 ^ d1 * 2 ^ s = 2 ^ 54 * 2 ^ (d2 - 1))%Z).
  { rewrite <- !Z.pow_add_r by (unfold s; lia). f_equal. unfold s. lia. }
  assert (Bm' : (2 ^ 53 * 2 ^ (d2 - 1) <= m' < 2 ^ 54 * 2 ^ (d2 - 1))%Z).
  { unfold m'. rewrite <- Elo, <- Ehi. split.
    - apply Z.mul_le_mono_nonneg_r; lia.
    - apply Z.mul_lt_mono_pos_r; lia. }
  assert (Bq : (2 ^ 52 <= q < 2 ^ 54)%Z).
  { split.
    - destruct (Z_lt_le_dec q (2 ^ 52)) as [Hlt|]; [|assumption].
      assert (Z.pos m2 * q <= Z.pos m2 * (2 ^ 52 - 1))%Z
        by (apply Z.mul_le_mono_nonneg_l; lia).
      lia.
    - destruct (Z_lt_le_dec q (2 ^ 54)) as [|Hge]; [assumption|].
      assert (Z.pos m2 * 2 ^ 54 <= Z.pos m2 * q)%Z
        by (apply Z.mul_le_mono_nonneg_l; lia).
      lia. }
  set (dq := Zdigits2 q).
  assert (Hdq : (dq = 53 \/ dq = 54)%Z).
  { unfold dq. destruct q as [|pq|pq]; try lia. unfold Zdigits2.
    destruct (Z_lt_le_dec (Z.pos pq) (2 ^ 53)).
    - left. apply digits2_unique. simpl Z.sub. lia.
    - right. apply digits2_unique. simpl Z.sub. lia. }
  pose proof (new_location_located (Z.pos m2) q r eq_refl Hr) as Hloc.
  rewrite <- Eq in Hloc.
  destruct (binary_round_aux_correct false q e' (new_location (Z.pos m2) r)
              (IZR m' / IZR (Z.pos m2)) dq) as (m & e & E & Dm & Be & Err);
    try reflexivity; try lia; try exact Hloc.
  exists m, e. rewrite E. repeat split; try assumption; try lia.
  replace (F2R (Z.pos m1) e1 / F2R (Z.pos m2) e2)
    with (IZR m' / IZR (Z.pos m2) * powerRZ 2 e'); [exact Err|].
  unfold F2R, m'. rewrite mult_IZR, IZR_pow2 by (unfold s; lia).
  replace (powerRZ 2 e1) with (powerRZ 2 (s + e' + e2))
    by (f_equal; unfold s, e'; lia).
  rewrite !pow2_add.
  pose proof (pow2_pos e2). assert (0 < IZR (Z.pos m2)) by (apply IZR_lt; lia).
  field. split; lra.
Qed.


Lemma binary_round_aux_exact s m e :
  Z.pos (digits2_pos m) = 53%Z -> (-1074 <= e <= 971)%Z ->
  binary_round_aux prec emax s (Z.pos m) e loc_Exact = S754_finite s m e.
Proof.
  intros Dm He.
  assert (Hf : (fexp prec emax (Zdigits2 (Z.pos m) + e) - e = 0)%Z).
  { unfold Zdigits2. rewrite Dm. unfold fexp, emin, prec, emax. lia. }
  unfold binary_round_aux, shr_fexp. rewrite Hf.
  unfold shr, shr_record_of_loc, loc_of_shr_record, round_nearest_even, shr_m.
  rewrite Hf.
  assert (Hov : (e <=? emax - prec)%Z = true)
    by (apply Z.leb_le; unfold emax, prec; lia).
  rewrite Hov. reflexivity.
Qed.

Lemma pos_iter_xO m k : Z.pos (Pos.iter xO m k) = (Z.pos m * 2 ^ Z.pos k)%Z.
Proof.
  induction k as [|k IH] using Pos.peano_ind.
  - simpl. lia.
  - rewrite Pos.iter_succ, Pos2Z.inj_xO, IH, Pos2Z.inj_succ, Z.pow_succ_r by lia.
    lia.
Qed.

(** [float(n)] is exact for an integer of at most 53 bits. *)
Lemma float_of_int_exact n :
  (0 < n < 2 ^ 53)%Z ->
  exists m e,
    float_of_int n = Ok (S754_finite false m e) /\
    Z.pos (digits2_pos m) = 53%Z /\
    (-52 <= e <= 0)%Z /\
    F2R (Z.pos m) e = IZR n.
Proof.
  intros Hn. destruct n as [|p|p]; try lia.
  pose proof (digits2_bounds p) as Bp.
  set (d := Z.pos (digits2_pos p)) in *.
  assert (Hd : (1 <= d <= 53)%Z).
  { split; [unfold d; lia|].
    destruct (Z_lt_le_dec 53 d) as [Hgt|]; [|assumption].
    assert (2 ^ 53 <= 2 ^ (d - 1))%Z by (apply Z.pow_le_mono_r; lia). lia. }
  unfold float_of_int, binary_normalize, binary_round, shl_align.
  fold d.
  assert (Hf : (fexp prec emax (d + 0) - 0 = d - 53)%Z)
    by (unfold fexp, emin, prec, emax; lia).
  rewrite Hf.
  assert (Hf' : (fexp prec emax (d + 0) = d - 53)%Z)
    by (unfold fexp, emin, prec, emax; lia).
  destruct (d - 53)%Z as [|k|k] eqn:Ek; try lia.
  - rewrite binary_round_aux_exact; try lia.
    exists p, 0%Z. repeat split; try lia.
    unfold F2R. simpl. ring.
  - rewrite Hf'.
    assert (Dm : Z.pos (digits2_pos (Pos.iter xO p k)) = 53%Z).
    { apply digits2_unique. rewrite pos_iter_xO.
      assert (E1 : (2 ^ (53 - 1) = 2 ^ (d - 1) * 2 ^ Z.pos k)%Z)
        by (rewrite <- Z.pow_add_r by lia; f_equal; lia).
      assert (E2 : (2 ^ 53 = 2 ^ d * 2 ^ Z.pos k)%Z)
        by (rewrite <- Z.pow_add_r by lia; f_equal; lia).
      rewrite E1, E2.
      assert (0 < 2 ^ Z.pos k)%Z by (apply Z.pow_pos_nonneg; lia).
      split; [apply Z.mul_le_mono_nonneg_r | apply Z.mul_lt_mono_pos_r]; lia. }
    rewrite binary_round_aux_exact; try assumption; try lia.
    exists (Pos.iter xO p k), (Z.neg k). repeat split; try assumption; try lia.
    unfold F2R. rewrite pos_iter_xO, mult_IZR, IZR_pow2 by lia.
    rewrite Rmult_assoc, <- pow2_add.
    replace (Z.pos k + Z.neg k)%Z with 0%Z by lia. simpl. ring.
Qed.

(** [int(x)] is the floor of a positive double. *)
Lemma int_of_float_floor m e :
  exists n, int_of_float (S754_finite false m e) = Ok n /\
            IZR n <= F2R (Z.pos m) e < IZR n + 1.
Proof.
  unfold int_of_float, F2R. destruct (Z.leb_spec 0 e) as [He|He].
  - exists (Z.pos m * 2 ^ e)%Z. split; [reflexivity|].
    rewrite mult_IZR, IZR_pow2 by assumption. lra.
  - exists (Z.pos m / 2 ^ (- e))%Z. split; [reflexivity|].
    assert (Hp : (0 < 2 ^ (- e))%Z) by (apply Z.pow_pos_nonneg; lia).
    pose proof (Z.div_mod (Z.pos m) (2 ^ (- e)) ltac:(lia)) as Hdm.
    pose proof (Z.mod_pos_bound (Z.pos m) (2 ^ (- e)) Hp) as Hr.
    set (q := (Z.pos m / 2 ^ (- e))%Z) in *.
    set (r := (Z.pos m mod 2 ^ (- e))%Z) in *.
    assert (HP : 0 < IZR (2 ^ (- e))) by (apply IZR_lt; assumption).
    replace (powerRZ 2 e) with (/ IZR (2 ^ (- e))).
    2:{ rewrite IZR_pow2 by lia. rewrite powerRZ_neg', Rinv_inv. reflexivity. }
    rewrite Hdm, plus_IZR, mult_IZR.
    assert (0 <= IZR r) by (apply IZR_le; lia).
    assert (IZR r < IZR (2 ^ (- e))) by (apply IZR_lt; lia).
    replace ((IZR (2 ^ (- e)) * IZR q + IZR r) * / IZR (2 ^ (- e)))
      with (IZR q + IZR r * / IZR (2 ^ (- e))) by (field; lra).
    assert (0 <= IZR r * / IZR (2 ^ (- e)) < 1).
    { split.
      - apply Rmult_le_pos; [assumption|]. apply Rlt_le, Rinv_0_lt_compat, HP.
      - apply Rmult_lt_reg_r with (IZR (2 ^ (- e))); [assumption|].
        rewrite Rmult_assoc, Rinv_l by lra. lra. }
    lra.
Qed.

End Binary64Facts.

(** ** The steps estimate against the exact quotient *)

Section StepsAccuracy.

Import Binary64 Binary64Facts.

Local Open Scope R_scope.

Lemma lit_0_415_value :
  F2R 7475975381435023 (-54) = 7475975381435023 / 18014398509481984.
Proof.
  unfold F2R. change (-54)%Z with (- (54))%Z.
  rewrite powerRZ_neg', <- IZR_pow2 by lia. reflexivity.
Qed.

Lemma relative_error v x :
  Rabs (v - x) <= x * u -> x * (1 - u) <= v <= x * (1 + u).
Proof.
  intros H. revert H. unfold Rabs. destruct (Rcase_abs (v - x)); lra.
Qed.

(** Three roundings and the literal move the quotient by less than one
    unit of [1 / (415 * H)]. *)
Lemma steps_error_budget Hr Dr va vb vq :
  1 <= Hr -> 0 < Dr <= 4294967296 ->
  Rabs (va - Hr / 100) <= Hr / 100 * u ->
  Rabs (vb - va * F2R 7475975381435023 (-54))
    <= va * F2R 7475975381435023 (-54) * u ->
  Rabs (vq - Dr / vb) <= Dr / vb * u ->
  100000 * Dr - 1 < vq * (415 * Hr) < 100000 * Dr + 1.
Proof.
  intros HH HD Ha Hb Hq. rewrite lit_0_415_value in Hb.
  apply relative_error in Ha. apply relative_error in Hb.
  apply relative_error in Hq. unfold u in *.
  change (IZR (2 ^ 53)) with 9007199254740992 in *.
  assert (Hva : 0 < va) by lra.
  assert (Hvb : 0 < vb) by lra.
  set (dv := Dr / vb) in *.
  assert (Edv : dv * vb = Dr) by (unfold dv; field; lra).
  assert (Hdv : 0 < dv) by (unfold dv; apply Rdiv_lt_0_compat; lra).
  assert (Hvq : 0 < vq) by nra.
  assert (Hw : Dr * (1 - / 9007199254740992) <= vq * vb
               <= Dr * (1 + / 9007199254740992)).
  { split.
    - apply Rle_trans with (dv * (1 - / 9007199254740992) * vb); [|nra].
      rewrite <- Edv. lra.
    - apply Rle_trans with (dv * (1 + / 9007199254740992) * vb); [nra|].
      rewrite <- Edv. lra. }
  set (P := vq * Hr).
  set (k1 := (1 - / 9007199254740992) * (1 - / 9007199254740992)
             * (7475975381435023 / 18014398509481984) / 100).
  set (k2 := (1 + / 9007199254740992) * (1 + / 9007199254740992)
             * (7475975381435023 / 18014398509481984) / 100).
  assert (Hb1 : k1 * Hr <= vb) by (unfold k1; lra).
  assert (Hb2 : vb <= k2 * Hr) by (unfold k2; lra).
  assert (Hp1 : k1 * P <= vq * vb).
  { unfold P. replace (k1 * (vq * Hr)) with (vq * (k1 * Hr)) by ring.
    apply Rmult_le_compat_l; lra. }
  assert (Hp2 : vq * vb <= k2 * P).
  { unfold P. replace (k2 * (vq * Hr)) with (vq * (k2 * Hr)) by ring.
    apply Rmult_le_compat_l; lra. }
  replace (vq * (415 * Hr)) with (415 * P) by (unfold P; ring).
  unfold k1, k2 in *. split; lra.
Qed.

Lemma digits2_le p k :
  (0 <= k)%Z -> (Z.pos p < 2 ^ k)%Z -> (Z.pos (digits2_pos p) <= k)%Z.
Proof.
  intros Hk Hp. pose proof (digits2_bounds p) as [Bl _].
  destruct (Z_lt_le_dec k (Z.pos (digits2_pos p))) as [Hgt|]; [|assumption].
  assert (2 ^ k <= 2 ^ (Z.pos (digits2_pos p) - 1))%Z
    by (apply Z.pow_le_mono_r; lia).
  lia.
Qed.

(** The divisor [int(USER_HEIGHT) / 100 * 0.415] is a positive normal
    double within two roundings of its exact value. *)
Lemma divisor_correct H :
  (1 <= H < 2 ^ 31)%Z ->
  exists ma ea mb eb,
    int_truediv H 100 = Ok (S754_finite false ma ea) /\
    float_mul (S754_finite false ma ea) lit_0_415 = S754_finite false mb eb /\
    Z.pos (digits2_pos mb) = 53%Z /\
    (-63 <= eb <= -27)%Z /\
    Rabs (F2R (Z.pos ma) ea - IZR H / 100) <= IZR H / 100 * u /\
    Rabs (F2R (Z.pos mb) eb - F2R (Z.pos ma) ea * F2R 7475975381435023 (-54))
      <= F2R (Z.pos ma) ea * F2R 7475975381435023 (-54) * u.
Proof.
  intros HH. destruct H as [|p|p]; try lia.
  pose proof (digits2_le p 31 ltac:(lia) ltac:(lia)) as Hd.
  assert (Hd0 : (1 <= Z.pos (digits2_pos p))%Z) by lia.
  destruct (SFdiv_correct p 0 100 0) as (ma & ea & Ea & Dma & Bea & Erra);
    try (simpl digits2_pos; lia).
  simpl digits2_pos in Bea.
  destruct (SFmul_correct ma ea 7475975381435023 (-54) Dma eq_refl)
    as (mb & eb & Eb & Dmb & Beb & Errb); try lia.
  exists ma, ea, mb, eb. repeat split; try assumption; try lia.
  - unfold int_truediv. simpl exact_int.
    change (100 =? 0)%Z with false. cbv iota. rewrite Ea. reflexivity.
  - replace (IZR (Z.pos p) / 100) with (F2R (Z.pos p) 0 / F2R 100 0).
    + exact Erra.
    + unfold F2R. simpl. field.
Qed.

(** The steps estimate is the floor of the exact quotient
    [100000 * dist / (415 * H)], or one less when that quotient is an
    integer. *)
Lemma steps_accuracy h H D :
  int_of h = Ok H -> (1 <= H < 2 ^ 31)%Z -> (0 <= D < 2 ^ 32)%Z ->
  exists n,
    steps h D = Ok (str_int n) /\
    (0 <= n)%Z /\
    (((100000 * D) mod (415 * H) <> 0)%Z -> n = steps_exact H 1 D) /\
    (((100000 * D) mod (415 * H) = 0)%Z ->
     n = steps_exact H 1 D \/ n = (steps_exact H 1 D - 1)%Z).
Proof.
  intros Hh HH HD.
  destruct (divisor_correct H HH)
    as (ma & ea & mb & eb & Ea & Eb & Dmb & Beb & Erra & Errb).
  unfold steps. rewrite Hh. cbn [bind]. rewrite Ea. cbn [bind]. rewrite Eb.
  unfold steps_exact. rewrite Z.mul_1_r.
  destruct (Z.eq_dec D 0) as [->|HD0].
  - exists 0%Z. split; [reflexivity|]. split; [lia|].
    rewrite Z.mul_0_r, Z.div_0_l by lia. split; intros; auto.
  - destruct (float_of_int_exact D ltac:(lia)) as (mD & eD & ED & DmD & BeD & VD).
    destruct (SFdiv_correct mD eD mb eb) as (mq & eq & Eq & Dmq & Beq & Errq);
      try lia.
    destruct (int_of_float_floor mq eq) as (n & En & Bn).
    exists n. split.
    { unfold int_div_float. rewrite ED. cbn [bind]. unfold float_truediv.
      cbn [is_zero]. cbv iota. cbn [bind]. rewrite Eq, En. reflexivity. }
    rewrite VD in Errq.
    assert (HHr : 1 <= IZR H) by (apply IZR_le; lia).
    assert (HDr : 0 < IZR D <= 4294967296).
    { split; [apply IZR_lt; lia | apply IZR_le; lia]. }
    pose proof (steps_error_budget (IZR H) (IZR D) _ _ _ HHr HDr Erra Errb Errq)
      as [Blo Bhi].
    set (vq := F2R (Z.pos mq) eq) in *.
    set (N := (100000 * D)%Z). set (M := (415 * H)%Z).
    assert (HM : (0 < M)%Z) by (unfold M; lia).
    assert (HMr : 0 < IZR M) by (apply IZR_lt; assumption).
    assert (EN : IZR N = 100000 * IZR D) by (unfold N; rewrite mult_IZR; reflexivity).
    assert (EM : IZR M = 415 * IZR H) by (unfold M; rewrite mult_IZR; reflexivity).
    rewrite <- EN, <- EM in Blo, Bhi.
    assert (Hn1 : (n * M < N + 1)%Z).
    { apply lt_IZR. rewrite plus_IZR, mult_IZR.
      apply Rle_lt_trans with (vq * IZR M); [|exact Bhi].
      apply Rmult_le_compat_r; lra. }
    assert (Hn2 : (N - 1 < (n + 1) * M)%Z).
    { apply lt_IZR. rewrite minus_IZR, mult_IZR, plus_IZR.
      apply Rlt_trans with (vq * IZR M); [exact Blo|].
      apply Rmult_lt_compat_r; lra. }
    pose proof (Z.div_mod N M ltac:(lia)) as Hdm.
    pose proof (Z.mod_pos_bound N M HM) as Hr.
    assert (Hn0 : (0 <= n)%Z) by (unfold N in *; nia).
    split; [exact Hn0|].
    split; intros Hmod; nia.
Qed.

End StepsAccuracy.

(** ** Decimal strings *)

Module TextFacts.

Lemma append_assoc (a b c : string) : ((a ++ b) ++ c)%string = (a ++ (b ++ c))%string.
Proof. induction a as [|x a IH]; simpl; [reflexivity | now rewrite IH]. Qed.

Lemma append_nil_r (a : string) : (a ++ "")%string = a.
Proof. induction a as [|x a IH]; simpl; [reflexivity | now rewrite IH]. Qed.

Lemma length_append (a b : string) :
  String.length (a ++ b) = (String.length a + String.length b)%nat.
Proof. induction a as [|x a IH]; simpl; [reflexivity | now rewrite IH]. Qed.

Lemma all_digits_app (a b : string) :
  all_digits (a ++ b) = all_digits a && all_digits b.
Proof.
  induction a as [|x a IH]; simpl; [reflexivity|].
  rewrite IH. apply andb_assoc.
Qed.

Lemma read_digits_app (a b : string) : forall acc,
  read_digits acc (a ++ b) = read_digits (read_digits acc a) b.
Proof. induction a as [|x a IH]; simpl; intros; [reflexivity | apply IH]. Qed.

Lemma digit_of_spec d :
  0 <= d < 10 ->
  is_digit (digit_of d) = true /\
  Z.of_nat (nat_of_ascii (digit_of d)) - 48 = d.
Proof.
  intros Hd. unfold digit_of, is_digit.
  rewrite nat_ascii_embedding by lia. split.
  - apply andb_true_iff. split; apply Nat.leb_le; lia.
  - lia.
Qed.

(** With enough fuel [to_digits] writes the decimal expansion of [n] in
    front of the accumulator: digits only, no leading zero, value [n]. *)
Lemma to_digits_spec fuel : forall n acc,
  (1 <= fuel)%nat -> 0 <= n < 10 ^ Z.of_nat fuel ->
  exists ds,
    to_digits fuel n acc = (ds ++ acc)%string /\
    all_digits ds = true /\
    (forall a, read_digits a ds = a * 10 ^ Z.of_nat (String.length ds) + n) /\
    (1 <= String.length ds)%nat /\
    n < 10 ^ Z.of_nat (String.length ds) /\
    (String.length ds = 1%nat \/ 10 ^ (Z.of_nat (String.length ds) - 1) <= n).
Proof.
  induction fuel as [|f IH]; intros n acc Hf Hn.
  - lia.
  - pose proof (Z.mod_pos_bound n 10 ltac:(lia)) as Hr.
    pose proof (Z.div_mod n 10 ltac:(lia)) as Hdm.
    destruct (digit_of_spec (n mod 10) Hr) as [Dg Dv].
    simpl to_digits. destruct (Z.eqb_spec (n / 10) 0) as [Hq|Hq].
    + exists (String (digit_of (n mod 10)) "").
      cbn [append all_digits read_digits String.length].
      rewrite Dg. change (10 ^ Z.of_nat 1) with 10.
      repeat split; lia.
    + assert (Hq' : 0 < n / 10) by (pose proof (Z.div_pos n 10); lia).
      assert (Hlt : n / 10 < 10 ^ Z.of_nat f).
      { apply Z.div_lt_upper_bound; [lia|].
        rewrite Nat2Z.inj_succ, Z.pow_succ_r in Hn by lia. lia. }
      assert (Hf1 : (1 <= f)%nat).
      { destruct f; [simpl in Hlt; lia | lia]. }
      destruct (IH (n / 10) (String (digit_of (n mod 10)) acc) Hf1 ltac:(lia))
        as (ds & E & Ad & Rd & L1 & Lu & Ll).
      exists (ds ++ String (digit_of (n mod 10)) "")%string.
      rewrite E, append_assoc, all_digits_app, Ad, length_append.
      cbn [append all_digits read_digits String.length andb].
      rewrite Dg. replace (String.length ds + 1)%nat with (S (String.length ds)) by lia.
      rewrite Nat2Z.inj_succ, Z.pow_succ_r by lia.
      repeat split; try lia.
      * intros a. rewrite read_digits_app, Rd. cbn [read_digits].
        rewrite Dv. lia.
      * right. replace (Z.succ (Z.of_nat (String.length ds)) - 1)
          with (Z.succ (Z.of_nat (String.length ds) - 1)) by lia.
        destruct Ll as [L|L].
        -- rewrite L. simpl. lia.
        -- rewrite Z.pow_succ_r by lia. lia.
Qed.

Lemma str_nonneg_spec n :
  0 <= n ->
  all_digits (str_nonneg n) = true /\
  number_of (str_nonneg n) = n /\
  (1 <= String.length (str_nonneg n))%nat /\
  n < 10 ^ Z.of_nat (String.length (str_nonneg n)) /\
  (String.length (str_nonneg n) = 1%nat \/
   10 ^ (Z.of_nat (String.length (str_nonneg n)) - 1) <= n).
Proof.
  intros Hn. unfold str_nonneg.
  assert (Hf : 0 <= n < 10 ^ Z.of_nat (S (Z.to_nat (Z.log2 n)))).
  { split; [assumption|].
    rewrite Nat2Z.inj_succ, Z2Nat.id by apply Z.log2_nonneg.
    destruct (Z.eq_dec n 0) as [->|Hn0]; [simpl; lia|].
    pose proof (Z.log2_spec n ltac:(lia)) as [_ Hu].
    apply Z.lt_le_trans with (2 ^ Z.succ (Z.log2 n)); [assumption|].
    apply Z.pow_le_mono_l. lia. }
  destruct (to_digits_spec (S (Z.to_nat (Z.log2 n))) n "" ltac:(lia) Hf)
    as (ds & E & Ad & Rd & L1 & Lu & Ll).
  rewrite E, append_nil_r. unfold number_of. rewrite Rd.
  repeat split; try assumption; lia.
Qed.

(** The width of [str(n)] follows the magnitude of [n]. *)
Lemma str_nonneg_wide n k :
  0 <= k -> 10 ^ k <= n -> k < Z.of_nat (String.length (str_nonneg n)).
Proof.
  intros Hk Hn.
  destruct (str_nonneg_spec n) as (_ & _ & _ & Lu & _).
  { pose proof (Z.pow_pos_nonneg 10 k); lia. }
  apply (Z.pow_lt_mono_r_iff 10); lia.
Qed.

Lemma str_nonneg_narrow n k :
  0 <= n < 10 ^ k -> 1 <= k -> Z.of_nat (String.length (str_nonneg n)) <= k.
Proof.
  intros Hn Hk.
  destruct (str_nonneg_spec n) as (_ & _ & _ & _ & [L|L]); [lia | lia |].
  assert (10 ^ (Z.of_nat (String.length (str_nonneg n)) - 1) < 10 ^ k) by lia.
  apply Z.pow_lt_mono_r_iff in H; lia.
Qed.

Lemma length_zeros k : String.length (zeros k) = k.
Proof. induction k; simpl; congruence. Qed.

Lemma all_digits_zeros k : all_digits (zeros k) = true.
Proof. induction k; simpl; [reflexivity | assumption]. Qed.

Lemma read_digits_zeros k s : read_digits 0 (zeros k ++ s) = read_digits 0 s.
Proof. induction k; simpl; [reflexivity | assumption]. Qed.

Lemma zfill_unsigned w body :
  zfill_sign w false body = (zeros (w - String.length body) ++ body)%string.
Proof. unfold zfill_sign. simpl. rewrite Nat.sub_0_r. reflexivity. Qed.

(** [format(n, "0{w}d")] of a non-negative integer: digits only, at least
    [w] of them, and the value is [n]. *)
Lemma format_d_spec w n :
  0 <= n ->
  all_digits (format_d w n) = true /\
  number_of (format_d w n) = n /\
  String.length (format_d w n)
    = Nat.max w (String.length (str_nonneg n)).
Proof.
  intros Hn. unfold format_d.
  destruct (Z.ltb_spec n 0) as [|_]; [lia|].
  rewrite Z.abs_eq by assumption. rewrite zfill_unsigned.
  destruct (str_nonneg_spec n Hn) as (Ad & Nv & _).
  rewrite all_digits_app, all_digits_zeros, Ad, length_append, length_zeros.
  unfold number_of in *. rewrite read_digits_zeros, Nv.
  repeat split; lia.
Qed.

(** Below [10^w] the text has exactly [w] characters. *)
Lemma format_d_fits w n :
  (1 <= w)%nat -> 0 <= n < 10 ^ Z.of_nat w ->
  String.length (format_d w n) = w.
Proof.
  intros Hw Hn. destruct (format_d_spec w n) as (_ & _ & L); [lia|].
  rewrite L. pose proof (str_nonneg_narrow n (Z.of_nat w) Hn ltac:(lia)). lia.
Qed.

(** From [10^w] on it has more. *)
Lemma format_d_overflows w n :
  10 ^ Z.of_nat w <= n -> (w < String.length (format_d w n))%nat.
Proof.
  intros Hn.
  assert (0 < 10 ^ Z.of_nat w) by (apply Z.pow_pos_nonneg; lia).
  destruct (format_d_spec w n) as (_ & _ & L); [lia|].
  rewrite L. pose proof (str_nonneg_wide n (Z.of_nat w) ltac:(lia) Hn). lia.
Qed.

Lemma follows_zeros t :
  all_digits t = true -> follows (zeros (String.length t)) t = true.
Proof.
  induction t as [|c t IH]; simpl; [reflexivity|].
  intros H. apply andb_true_iff in H as [Hc Ht].
  rewrite Hc, IH by assumption. reflexivity.
Qed.

(** A text of digits of known length follows the pattern of zeros of that
    length. *)
Ltac by_width A L :=
  let F := fresh "F" in
  pose proof (follows_zeros _ A) as F; rewrite L in F; exact F.

Lemma follows_app p1 p2 t1 t2 :
  follows p1 t1 = true -> follows p2 t2 = true ->
  follows (p1 ++ p2) (t1 ++ t2) = true.
Proof.
  revert t1. induction p1 as [|p p1 IH]; intros [|c t1]; simpl;
    try discriminate; [auto|].
  intros H H2. apply andb_true_iff in H as [Hc Ht].
  rewrite Hc, IH by assumption. reflexivity.
Qed.

End TextFacts.

(** ** The telemetry channel *)

Section Channel.

Lemma full_iff (q : Queue.t snapshot) :
  Queue.maxsize q = 5 ->
  Queue.full q = true <-> (5 <= List.length (Queue.items q))%nat.
Proof.
  intros Hm. unfold Queue.full, Queue.qsize. rewrite Hm. simpl.
  rewrite Z.leb_le. lia.
Qed.

Lemma producer_step_inv xs s :
  pipeline_inv xs s -> pipeline_inv xs (producer_step s).
Proof.
  intros (Hx & Hl & Hm). unfold producer_step.
  destruct (pending s) as [|x rest] eqn:Ep; [repeat split; congruence|].
  unfold Queue.put. destruct (Queue.full (channel s)) eqn:Ef.
  - repeat split; congruence.
  - assert (~ (5 <= List.length (Queue.items (channel s)))%nat) as Hn.
    { rewrite <- full_iff by assumption. congruence. }
    unfold pipeline_inv. simpl. rewrite length_app. simpl.
    repeat split; try lia; try assumption.
    rewrite <- Hx, <- !app_assoc. reflexivity.
Qed.

Lemma consumer_step_inv xs s :
  pipeline_inv xs s -> pipeline_inv xs (consumer_step s).
Proof.
  intros (Hx & Hl & Hm). unfold consumer_step, Queue.get.
  destruct (Queue.items (channel s)) as [|x rest] eqn:Ei.
  - unfold pipeline_inv. rewrite Ei. repeat split; assumption.
  - unfold pipeline_inv. simpl in *.
    repeat split; try lia; try assumption.
    rewrite <- Hx, <- !app_assoc. reflexivity.
Qed.

Create HintDb pipeline.

#[local] Hint Resolve producer_step_inv consumer_step_inv : pipeline.







End Channel.

(** ** The command dispatcher *)

Section Dispatcher.

Lemma call_controller_frame c a :
  queue (call_controller c a) = queue a /\
  workers (call_controller c a) = workers a /\
  posted (call_controller c a) = posted a /\
  screen (call_controller c a) = screen a.
Proof. repeat split. Qed.

(** The specification's [DecreaseSpeed -> setSpeed(-1)] does not hold: the
    handler of the [dec_speed] button passes the positive literal 1. *)
Lemma C3_decrease_passes_plus_one :
  controller (dispatch DecreaseSpeed (new_app telemetry_queue)) = [SetSpeed 1] /\
  controller (dispatch DecreaseSpeed (new_app telemetry_queue))
    <> [SetSpeed (-1)].
Proof. split; [reflexivity | discriminate]. Qed.

(** C3, amended. Each of the four intents is exactly one controller call,
    whatever the state of the application and of the telemetry queue:
    [Start -> start()], [Stop -> stop()], [IncreaseSpeed -> set_speed(2)] and
    [DecreaseSpeed -> set_speed(1)]; the queue, the workers, the posted
    messages and the screen are left as they were. *)
Theorem C3_dispatch_one_call (a : app) :
  controller (dispatch IntentStart a) = (controller a ++ [Start])%list /\
  controller (dispatch IntentStop a) = (controller a ++ [Stop])%list /\
  controller (dispatch IncreaseSpeed a) = (controller a ++ [SetSpeed 2])%list /\
  controller (dispatch DecreaseSpeed a) = (controller a ++ [SetSpeed 1])%list /\
  forall i : intent,
    queue (dispatch i a) = queue a /\
    workers (dispatch i a) = workers a /\
    posted (dispatch i a) = posted a /\
    screen (dispatch i a) = screen a.
Proof.
  repeat split; destruct i; reflexivity.
Qed.

End Dispatcher.

(** ** The exclusive worker *)

Section Workers.

Variable USER_HEIGHT : number.

Lemma cancel_group_default ws :
  Forall in_default ws -> cancel_group "default" ws = map cancel_worker ws.
Proof.
  intros H. unfold cancel_group. apply map_ext_in. intros w Hw.
  rewrite Forall_forall in H. rewrite (H w Hw). reflexivity.
Qed.

Lemma count_running_cancelled ws : count_running (map cancel_worker ws) = 0%nat.
Proof.
  unfold count_running. induction ws as [|w ws IH]; [reflexivity|].
  simpl. destruct w as [g [| |]]; simpl; assumption.
Qed.

Lemma count_running_app ws1 ws2 :
  count_running (ws1 ++ ws2) = (count_running ws1 + count_running ws2)%nat.
Proof. unfold count_running. rewrite filter_app, length_app. reflexivity. Qed.

Lemma on_mount_workers a :
  Forall in_default (workers a) ->
  workers (on_mount a)
  = (map cancel_worker (workers a)
     ++ [{| group := "default"; state := RUNNING |}])%list.
Proof.
  intros H. unfold on_mount, run_worker, add_worker. simpl.
  rewrite cancel_group_default by assumption. reflexivity.
Qed.

Lemma set_state_default i s ws :
  Forall in_default ws -> Forall in_default (set_state i s ws).
Proof.
  revert i. induction ws as [|w ws IH]; intros i H; [simpl; constructor|].
  inversion H; subst. destruct i; simpl; constructor; auto.
Qed.

Lemma set_state_error i ws :
  (count_running (set_state i ERROR ws) <= count_running ws)%nat.
Proof.
  unfold count_running. revert i.
  induction ws as [|w ws IH]; intros i; [simpl; lia|].
  destruct i; simpl.
  - destruct (is_running w); simpl; lia.
  - specialize (IH i). destruct (is_running w); simpl; lia.
Qed.

Lemma oks_snoc {A : Type} (rs : list (result A)) r :
  oks (rs ++ [r])
  = (oks rs ++ match r with Ok a => [a] | Raise _ => [] end)%list.
Proof.
  induction rs as [|[a|e] rs IH]; simpl.
  - destruct r; reflexivity.
  - rewrite IH. reflexivity.
  - assumption.
Qed.

Lemma system_step_inv s e :
  system_inv USER_HEIGHT s ->
  system_inv USER_HEIGHT (system_step USER_HEIGHT s e).
Proof.
  intros (Hg & Hc & taken & Ht & Hp). destruct e as [|x|i]; simpl.
  - unfold system_inv. simpl ui. rewrite on_mount_workers by assumption.
    repeat split.
    + apply Forall_app. split.
      * rewrite Forall_forall in *. intros w Hw.
        apply in_map_iff in Hw as (w0 & <- & Hw0). specialize (Hg w0 Hw0).
        unfold in_default, cancel_worker in *. destruct (state w0); assumption.
      * repeat constructor.
    + rewrite count_running_app, count_running_cancelled. cbv. lia.
    + exists taken. split; assumption.
  - unfold Queue.put. destruct (Queue.full (queue (ui s))).
    + repeat split; try assumption. exists taken. split; assumption.
    + repeat split; try assumption. exists taken. simpl. split.
      * rewrite app_assoc, Ht. reflexivity.
      * assumption.
  - unfold system_inv, watch_queue. simpl ui. simpl produced.
    destruct (nth_error (workers (ui s)) i) as [w|];
      [|repeat split; try assumption; exists taken; split; assumption].
    destruct (is_running w);
      [|repeat split; try assumption; exists taken; split; assumption].
    unfold Queue.get.
    destruct (Queue.items (queue (ui s))) as [|x rest] eqn:Ei;
      [rewrite Ei; repeat split; try assumption; exists taken;
       split; assumption|].
    destruct (derive USER_HEIGHT x) as [data|err] eqn:Ed; simpl.
    + repeat split; try assumption. exists (taken ++ [x])%list. split.
      * rewrite <- app_assoc. exact Ht.
      * rewrite map_app. cbn [map]. rewrite oks_snoc, Ed, Hp. reflexivity.
    + repeat split.
      * apply set_state_default. assumption.
      * pose proof (set_state_error i (workers (ui s))). lia.
      * exists (taken ++ [x])%list. split.
        -- rewrite <- app_assoc. exact Ht.
        -- rewrite map_app. cbn [map]. rewrite oks_snoc, Ed, app_nil_r. exact Hp.
Qed.

Lemma run_system_inv es :
  system_inv USER_HEIGHT (run_system USER_HEIGHT es).
Proof.
  unfold run_system.
  assert (H0 : system_inv USER_HEIGHT
                 {| ui := new_app telemetry_queue; produced := [] |}).
  { split; [constructor | split; [cbv; lia | exists []; split; reflexivity]]. }
  revert H0. generalize {| ui := new_app telemetry_queue; produced := [] |}.
  induction es as [|e es IH]; intros s Hs; simpl; [assumption|].
  apply IH, system_step_inv, Hs.
Qed.

End Workers.




(** On the ordinary path the snapshot taken is posted once. *)
Example one_snapshot_one_event :
  posted (ui (run_system (Int 175)
            [Mount; Notify example_snapshot; Resume 0%nat; Resume 0%nat]))
  = [{| speed_text := "05.20";
        distance_text := "0120";
        calories_text := "0045";
        duration_text := "1:02:05";
        steps_text := "165" |}].
Proof. vm_compute. reflexivity. Qed.


(** ** Teardown *)

(** What [run] does after [task.cancel()] and [await task] is what the
    cancelled coroutine does with the cancellation. *)
Lemma run_teardown_pending (k : Task.t) :
  Task.st k = Task.PENDING ->
  snd (run_teardown k) = Some (Task.on_cancel k) /\
  Task.st (fst (run_teardown k)) = Task.FINISHED (Task.on_cancel k).
Proof.
  intros H. unfold run_teardown, Task.cancel. rewrite H.
  unfold Task.await, Task.wakeup. simpl. split; reflexivity.
Qed.

(** A coroutine that does not catch the cancellation makes [run] raise
    [CancelledError]. *)
Example run_teardown_unhandled :
  snd (run_teardown {| Task.st := Task.PENDING;
                       Task.must_cancel := false;
                       Task.on_cancel := Raise CancelledError |})
  = Some (Raise CancelledError).
Proof. reflexivity. Qed.

(** C7. At teardown the subscribe task is cancelled and awaited: when [run]
    goes on, the task has finished, and [run] goes on by returning, not by
    raising: the cancellation is a silent exit of the task. [run] itself
    handles nothing: for any pending task it ends the way the cancelled
    coroutine ends. *)
Theorem C7_teardown_is_silent :
  run_teardown subscribe
  = ({| Task.st := Task.FINISHED (Ok tt);
        Task.must_cancel := false;
        Task.on_cancel := Ok tt |},
     Some (Ok tt)) /\
  forall k : Task.t,
    Task.st k = Task.PENDING ->
    Task.st (fst (run_teardown k)) = Task.FINISHED (Task.on_cancel k) /\
    snd (run_teardown k) = Some (Task.on_cancel k).
Proof.
  split; [reflexivity|].
  intros k Hk. destruct (run_teardown_pending k Hk) as [Hs Hf].
  split; assumption.
Qed.

(** ** The five display strings *)

Section Display.

Import TextFacts.

Lemma derive_ok h snap data :
  derive h snap = Ok data ->
  exists td,
    timedelta_of_seconds (time snap) = Ok td /\
    steps h (distance snap) = Ok (steps_text data) /\
    speed_text data = format_f 5 2 (speed snap) /\
    distance_text data = format_d 4 (distance snap) /\
    calories_text data = format_d 4 (calories snap) /\
    duration_text data = timedelta_str td.
Proof.
  unfold derive.
  destruct (timedelta_of_seconds (time snap)) as [td|e]; [|discriminate].
  cbn [bind]. destruct (steps h (distance snap)) as [st|e]; [|discriminate].
  cbn [bind]. intros [= <-]. exists td. repeat split.
Qed.

Lemma derive_intro h snap td st :
  timedelta_of_seconds (time snap) = Ok td ->
  steps h (distance snap) = Ok st ->
  derive h snap
  = Ok {| speed_text := format_f 5 2 (speed snap);
          distance_text := format_d 4 (distance snap);
          calories_text := format_d 4 (calories snap);
          duration_text := timedelta_str td;
          steps_text := st |}.
Proof. intros Ht Hs. unfold derive. rewrite Ht, Hs. reflexivity. Qed.

(** *** Speed *)

Lemma round_half_even_bounds num den :
  0 <= num -> 0 < den ->
  num / den <= round_half_even num den <= num / den + 1.
Proof.
  intros Hn Hd. unfold round_half_even.
  destruct (2 * (num mod den) ?= den); [destruct (Z.even (num / den))| |]; lia.
Qed.

Lemma scaled_decimal_nonneg p m e : 0 <= scaled_decimal p m e.
Proof.
  unfold scaled_decimal.
  assert (0 < 10 ^ Z.of_nat p) by (apply Z.pow_pos_nonneg; lia).
  destruct (Z.leb_spec 0 e).
  - assert (0 < 2 ^ e) by (apply Z.pow_pos_nonneg; lia). nia.
  - assert (0 < 2 ^ (- e)) by (apply Z.pow_pos_nonneg; lia).
    pose proof (round_half_even_bounds (Z.pos m * 10 ^ Z.of_nat p) (2 ^ (- e))
                  ltac:(nia) ltac:(lia)).
    pose proof (Z.div_pos (Z.pos m * 10 ^ Z.of_nat p) (2 ^ (- e))
                  ltac:(nia) ltac:(lia)).
    lia.
Qed.

(** A speed of at least 100 has at least 10000 hundredths. *)
Lemma scaled_decimal_large m e :
  (100 <= Binary64.F2R (Z.pos m) e)%R -> 10000 <= scaled_decimal 2 m e.
Proof.
  unfold Binary64.F2R, scaled_decimal. intros H.
  change (10 ^ Z.of_nat 2) with 100.
  destruct (Z.leb_spec 0 e) as [He|He].
  - rewrite <- Binary64Facts.IZR_pow2, <- mult_IZR in H by assumption.
    apply le_IZR in H. lia.
  - assert (Hp : 0 < 2 ^ (- e)) by (apply Z.pow_pos_nonneg; lia).
    assert (Hm : 100 * 2 ^ (- e) <= Z.pos m).
    { apply le_IZR. rewrite mult_IZR, Binary64Facts.IZR_pow2 by lia.
      rewrite powerRZ_neg'.
      pose proof (Binary64Facts.pow2_pos e) as Hpe.
      apply Rmult_le_reg_r with (powerRZ 2 e); [assumption|].
      rewrite Rmult_assoc, Rinv_l by lra. lra. }
    pose proof (round_half_even_bounds (Z.pos m * 100) (2 ^ (- e))
                  ltac:(lia) Hp) as [Hl _].
    apply Z.le_trans with (Z.pos m * 100 / 2 ^ (- e)); [|assumption].
    apply Z.div_le_lower_bound; lia.
Qed.

Lemma fixed_digits_2 n :
  0 <= n ->
  fixed_digits 2 n
  = (str_nonneg (n / 100) ++ "." ++ format_d 2 (n mod 100))%string.
Proof.
  intros Hn. unfold fixed_digits, format_d.
  change (10 ^ Z.of_nat 2) with 100.
  pose proof (Z.mod_pos_bound n 100 ltac:(lia)).
  destruct (Z.ltb_spec (n mod 100) 0); [lia|].
  rewrite Z.abs_eq by lia. reflexivity.
Qed.

(** Below 100.00 the speed is two digits, a point and two digits. *)
Lemma format_f_fits m e :
  scaled_decimal 2 m e < 10000 ->
  format_f 5 2 (S754_finite false m e)
  = (format_d 2 (scaled_decimal 2 m e / 100) ++ "."
     ++ format_d 2 (scaled_decimal 2 m e mod 100))%string.
Proof.
  intros Hn. pose proof (scaled_decimal_nonneg 2 m e) as H0.
  set (n := scaled_decimal 2 m e) in *.
  unfold format_f. fold n. rewrite fixed_digits_2, zfill_unsigned by assumption.
  assert (Hq : 0 <= n / 100 < 100).
  { split; [apply Z.div_pos; lia | apply Z.div_lt_upper_bound; lia]. }
  pose proof (Z.mod_pos_bound n 100 ltac:(lia)) as Hr.
  rewrite !length_append.
  rewrite (format_d_fits 2 (n mod 100)) by (simpl; lia).
  change (String.length ".") with 1%nat.
  assert (E : format_d 2 (n / 100)
              = (zeros (2 - String.length (str_nonneg (n / 100)))
                 ++ str_nonneg (n / 100))%string).
  { unfold format_d. destruct (Z.ltb_spec (n / 100) 0); [lia|].
    rewrite Z.abs_eq, zfill_unsigned by lia. reflexivity. }
  rewrite E.
  replace (5 - (String.length (str_nonneg (n / 100)) + (1 + 2)))%nat
    with (2 - String.length (str_nonneg (n / 100)))%nat by lia.
  rewrite append_assoc. reflexivity.
Qed.

(** From 100.00 on nothing is padded and nothing is cut. *)
Lemma format_f_wide m e :
  10000 <= scaled_decimal 2 m e ->
  format_f 5 2 (S754_finite false m e)
  = (str_nonneg (scaled_decimal 2 m e / 100) ++ "."
     ++ format_d 2 (scaled_decimal 2 m e mod 100))%string /\
  (5 < String.length (format_f 5 2 (S754_finite false m e)))%nat.
Proof.
  intros Hn. set (n := scaled_decimal 2 m e) in *.
  unfold format_f. fold n. rewrite fixed_digits_2, zfill_unsigned by lia.
  pose proof (Z.mod_pos_bound n 100 ltac:(lia)) as Hr.
  assert (Hq : 10 ^ 2 <= n / 100) by (apply Z.div_le_lower_bound; lia).
  pose proof (str_nonneg_wide (n / 100) 2 ltac:(lia) Hq) as Hw.
  rewrite !length_append.
  rewrite (format_d_fits 2 (n mod 100)) by (simpl; lia).
  change (String.length ".") with 1%nat.
  replace (5 - (String.length (str_nonneg (n / 100)) + (1 + 2)))%nat
    with 0%nat by lia.
  simpl zeros. cbn [append]. split; [reflexivity | lia].
Qed.

(** *** Duration *)

Lemma mentions_app c a b :
  mentions c (a ++ b) = mentions c a || mentions c b.
Proof.
  induction a as [|x a IH]; simpl; [reflexivity|].
  rewrite IH. apply orb_assoc.
Qed.

Lemma digits_mention_no_letter c s :
  is_digit c = false -> all_digits s = true -> mentions c s = false.
Proof.
  intros Hc. induction s as [|x s IH]; simpl; [reflexivity|].
  intros H. apply andb_true_iff in H as [Hx Hs].
  rewrite (IH Hs), orb_false_r.
  destruct (Ascii.eqb_spec c x) as [->|]; [congruence | reflexivity].
Qed.

Lemma contains_mentions c needle s :
  contains (String c needle) s = true -> mentions c s = true.
Proof.
  induction s as [|x s IH]; simpl; [discriminate|].
  intros H. apply orb_true_iff in H as [H|H].
  - apply andb_true_iff in H as [H _]. rewrite H. reflexivity.
  - rewrite (IH H). apply orb_true_r.
Qed.

Lemma contains_app_r needle a b :
  contains needle b = true -> contains needle (a ++ b) = true.
Proof.
  intros H. induction a as [|x a IH]; simpl; [assumption|].
  rewrite IH. apply orb_true_r.
Qed.

Lemma str_int_nonneg n : 0 <= n -> str_int n = str_nonneg n.
Proof. intros H. unfold str_int. destruct (Z.ltb_spec n 0); [lia | reflexivity]. Qed.

(** The clock of less than a day: hours without padding, minutes and
    seconds on two digits; no letter in it. *)
Lemma clock_spec s :
  0 <= s < 86400 ->
  clock s = (str_nonneg (s / 60 / 60) ++ ":" ++ format_d 2 (s / 60 mod 60)
             ++ ":" ++ format_d 2 (s mod 60))%string /\
  all_digits (str_nonneg (s / 60 / 60)) = true /\
  number_of (str_nonneg (s / 60 / 60)) = s / 60 / 60 /\
  follows "00" (format_d 2 (s / 60 mod 60)) = true /\
  number_of (format_d 2 (s / 60 mod 60)) = s / 60 mod 60 /\
  follows "00" (format_d 2 (s mod 60)) = true /\
  number_of (format_d 2 (s mod 60)) = s mod 60 /\
  mentions "d" (clock s) = false.
Proof.
  intros Hs.
  assert (Hh : 0 <= s / 60 / 60).
  { apply Z.div_pos; [apply Z.div_pos|]; lia. }
  pose proof (Z.mod_pos_bound (s / 60) 60 ltac:(lia)) as Hm.
  pose proof (Z.mod_pos_bound s 60 ltac:(lia)) as Hsec.
  destruct (str_nonneg_spec _ Hh) as (Ah & Nh & _).
  destruct (format_d_spec 2 (s / 60 mod 60) ltac:(lia)) as (Am & Nm & _).
  destruct (format_d_spec 2 (s mod 60) ltac:(lia)) as (As & Ns & _).
  pose proof (format_d_fits 2 (s / 60 mod 60) ltac:(lia) ltac:(simpl; lia)) as Lm.
  pose proof (format_d_fits 2 (s mod 60) ltac:(lia) ltac:(simpl; lia)) as Ls.
  assert (E : clock s = (str_nonneg (s / 60 / 60) ++ ":"
                         ++ format_d 2 (s / 60 mod 60)
                         ++ ":" ++ format_d 2 (s mod 60))%string).
  { unfold clock. rewrite str_int_nonneg by assumption. reflexivity. }
  repeat split; try assumption.
  - by_width Am Lm.
  - by_width As Ls.
  - rewrite E, !mentions_app.
    rewrite (digits_mention_no_letter "d" _ eq_refl Ah),
      (digits_mention_no_letter "d" _ eq_refl Am),
      (digits_mention_no_letter "d" _ eq_refl As).
    reflexivity.
Qed.

Lemma timedelta_of_seconds_ok t td :
  timedelta_of_seconds t = Ok td ->
  td = {| days := t / 86400; seconds := t mod 86400; microseconds := 0 |} /\
  Z.abs (t / 86400) <= 999999999.
Proof.
  unfold timedelta_of_seconds.
  destruct (Z.ltb_spec 999999999 (Z.abs (t / 86400))); [discriminate|].
  intros [= <-]. split; [reflexivity | assumption].
Qed.

Lemma timedelta_of_seconds_in_range t :
  0 <= t < 86400 * 1000000000 ->
  timedelta_of_seconds t
  = Ok {| days := t / 86400; seconds := t mod 86400; microseconds := 0 |}.
Proof.
  intros Ht. unfold timedelta_of_seconds.
  assert (0 <= t / 86400 < 1000000000).
  { split; [apply Z.div_pos; lia | apply Z.div_lt_upper_bound; lia]. }
  destruct (Z.ltb_spec 999999999 (Z.abs (t / 86400))); [lia | reflexivity].
Qed.

Lemma timedelta_str_whole d s :
  timedelta_str {| days := d; seconds := s; microseconds := 0 |}
  = if d =? 0 then clock s
    else (str_int d ++ " day" ++ (if (Z.abs d =? 1)%Z then "" else "s")
          ++ ", " ++ clock s)%string.
Proof. reflexivity. Qed.

End Display.

(** * Properties of the display *)

Section DisplayProperties.

Import TextFacts.

(** C2. The snapshot with speed 5.2, distance 120, calories 45 and 3725
    elapsed seconds, for a user height of 175 cm, is displayed as ["05.20"],
    ["0120"], ["0045"], ["1:02:05"] and 165 steps. *)
Theorem C2_example_display :
  derive (Int 175) example_snapshot
  = Ok {| speed_text := "05.20";
          distance_text := "0120";
          calories_text := "0045";
          duration_text := "1:02:05";
          steps_text := "165" |}.
Proof. vm_compute. reflexivity. Qed.

(** The render event of the example snapshot does not follow the patterns
    ["00.0"] and ["000"] of the specification: the speed has two decimals
    and the calories four digits. *)
Lemma C4_example_breaks_patterns :
  render (Int 175) example_snapshot (new_app telemetry_queue)
  = Ok {| queue := telemetry_queue;
          controller := [];
          workers := [];
          posted := [];
          screen := {| DurationDisplay := "1:02:05";
                       SpeedDisplay := "05.20";
                       CaloriesDisplay := "0045";
                       DistanceDisplay := "0120";
                       StepsDisplay := "165" |} |} /\
  follows "00.0" "05.20" = false /\
  follows "000" "0045" = false.
Proof. vm_compute. repeat split. Qed.

(** C4, amended. For a snapshot whose values fit the displays (a speed that
    is finite, not negative and below 100.00 once rounded to hundredths,
    distance and calories below 10000, less than a day elapsed) and a height
    of at least 1 cm, the render event writes five fields: the speed as
    ["00.00"], two decimals; the duration as hours, minutes and seconds,
    the minutes and the seconds on two digits; the distance on four digits;
    the calories on four digits; the steps as an integer without padding. *)
Theorem C4_render_fields (h : number) (H : Z) (snap : snapshot) (a : app)
    (cs : Z) :
  int_of h = Ok H -> 1 <= H < 2 ^ 31 ->
  hundredths (speed snap) = Some cs -> cs < 10000 ->
  0 <= distance snap < 10000 ->
  0 <= calories snap < 10000 ->
  0 <= time snap < 86400 ->
  exists a' n,
    render h snap a = Ok a' /\
    SpeedDisplay (screen a')
      = (format_d 2 (cs / 100) ++ "." ++ format_d 2 (cs mod 100))%string /\
    follows "00.00" (SpeedDisplay (screen a')) = true /\
    follows "0000" (DistanceDisplay (screen a')) = true /\
    number_of (DistanceDisplay (screen a')) = distance snap /\
    follows "0000" (CaloriesDisplay (screen a')) = true /\
    number_of (CaloriesDisplay (screen a')) = calories snap /\
    DurationDisplay (screen a')
      = (str_nonneg (time snap / 60 / 60) ++ ":"
         ++ format_d 2 (time snap / 60 mod 60) ++ ":"
         ++ format_d 2 (time snap mod 60))%string /\
    follows "00" (format_d 2 (time snap / 60 mod 60)) = true /\
    follows "00" (format_d 2 (time snap mod 60)) = true /\
    0 <= n /\
    StepsDisplay (screen a') = str_nonneg n /\
    all_digits (StepsDisplay (screen a')) = true /\
    number_of (StepsDisplay (screen a')) = n.
Proof.
  intros Hh HH Hcs Hlt Hd Hc Ht.
  destruct (steps_accuracy h H (distance snap) Hh HH ltac:(lia))
    as (n & Hn & Hn0 & _).
  pose proof (timedelta_of_seconds_in_range (time snap) ltac:(lia)) as Htd.
  rewrite Z.div_small, Z.mod_small in Htd by lia.
  exists (on_treadmill_update
            {| speed_text := format_f 5 2 (speed snap);
               distance_text := format_d 4 (distance snap);
               calories_text := format_d 4 (calories snap);
               duration_text :=
                 timedelta_str {| days := 0; seconds := time snap;
                                  microseconds := 0 |};
               steps_text := str_int n |} a), n.
  split.
  { unfold render. rewrite (derive_intro h snap _ _ Htd Hn). reflexivity. }
  cbn [on_treadmill_update screen SpeedDisplay DistanceDisplay CaloriesDisplay
       DurationDisplay StepsDisplay speed_text distance_text calories_text
       duration_text steps_text].
  assert (Hsp : format_f 5 2 (speed snap)
                = (format_d 2 (cs / 100) ++ "." ++ format_d 2 (cs mod 100))%string
                /\ 0 <= cs).
  { destruct (speed snap) as [[|]|[|]| |[|] m e]; try discriminate.
    - injection Hcs as <-. split; [reflexivity | lia].
    - injection Hcs as <-. split; [apply format_f_fits; assumption|].
      apply scaled_decimal_nonneg. }
  destruct Hsp as [Hsp Hcs0].
  assert (Hq : 0 <= cs / 100 < 100).
  { split; [apply Z.div_pos; lia | apply Z.div_lt_upper_bound; lia]. }
  pose proof (Z.mod_pos_bound cs 100 ltac:(lia)) as Hr.
  destruct (format_d_spec 2 (cs / 100) ltac:(lia)) as (A1 & _ & _).
  destruct (format_d_spec 2 (cs mod 100) ltac:(lia)) as (A2 & _ & _).
  pose proof (format_d_fits 2 (cs / 100) ltac:(lia) ltac:(simpl; lia)) as L1.
  pose proof (format_d_fits 2 (cs mod 100) ltac:(lia) ltac:(simpl; lia)) as L2.
  destruct (format_d_spec 4 (distance snap) ltac:(lia)) as (Ad & Nd & _).
  pose proof (format_d_fits 4 (distance snap) ltac:(lia) ltac:(simpl; lia)) as Ld.
  destruct (format_d_spec 4 (calories snap) ltac:(lia)) as (Ac & Nc & _).
  pose proof (format_d_fits 4 (calories snap) ltac:(lia) ltac:(simpl; lia)) as Lc.
  destruct (clock_spec (time snap) Ht) as (Ec & _ & _ & Fm & _ & Fs & _ & _).
  destruct (str_nonneg_spec n Hn0) as (An & Nn & _).
  rewrite timedelta_str_whole. cbn [Z.eqb]. rewrite str_int_nonneg by assumption.
  repeat split; try assumption.
  - rewrite Hsp. change "00.00"%string with ("00" ++ "." ++ "00")%string.
    apply follows_app; [|apply follows_app; [reflexivity|]].
    + by_width A1 L1.
    + by_width A2 L2.
  - by_width Ad Ld.
  - by_width Ac Lc.
Qed.

(** The estimate is not always the floor of the exact quotient. At 159 cm
    and 39591 m the exact quotient is the integer 60000 and the doubles give
    59999; a height of 175.5 cm is cut to 175 cm, which gives 165 where the
    exact quotient for 175.5 cm has floor 164. *)
Lemma C5_rounding_and_truncation :
  derive (Int 159) idle_snapshot
  = Ok {| speed_text := "00.00";
          distance_text := "39591";
          calories_text := "0000";
          duration_text := "0:00:00";
          steps_text := "59999" |} /\
  steps_exact 159 1 39591 = 60000 /\
  (100000 * 39591) mod (415 * 159) = 0 /\
  steps (Float float_175_5) 120 = Ok "165" /\
  steps_exact 351 2 120 = 164.
Proof. vm_compute. repeat split. Qed.


(** C5, amended. For a distance below [2^32] and a height whose integer
    part [H] is between 1 and [2^31], the estimate is computed in binary64
    from [H]: it is the floor of [distance / (H/100 * 0.415)] whenever that
    quotient is not an integer, and when the quotient is an integer [q] it
    is [q] or [q - 1]. *)
Theorem C5_steps_estimate (h : number) (H : Z) (snap : snapshot) :
  int_of h = Ok H -> 1 <= H < 2 ^ 31 ->
  0 <= distance snap < 2 ^ 32 ->
  0 <= time snap < 86400 * 1000000000 ->
  exists data n,
    derive h snap = Ok data /\
    steps_text data = str_int n /\
    0 <= n /\
    ((100000 * distance snap) mod (415 * H) <> 0 ->
     n = steps_exact H 1 (distance snap)) /\
    ((100000 * distance snap) mod (415 * H) = 0 ->
     n = steps_exact H 1 (distance snap) \/
     n = steps_exact H 1 (distance snap) - 1).
Proof.
  intros Hh HH Hd Ht.
  destruct (steps_accuracy h H (distance snap) Hh HH Hd)
    as (n & Hn & Hn0 & Hne & Heq).
  pose proof (timedelta_of_seconds_in_range (time snap) Ht) as Htd.
  exists {| speed_text := format_f 5 2 (speed snap);
            distance_text := format_d 4 (distance snap);
            calories_text := format_d 4 (calories snap);
            duration_text :=
              timedelta_str {| days := time snap / 86400;
                               seconds := time snap mod 86400;
                               microseconds := 0 |};
            steps_text := str_int n |}, n.
  split; [apply (derive_intro h snap _ _ Htd Hn)|].
  split; [reflexivity|]. split; [exact Hn0|]. split; assumption.
Qed.

Lemma C5_witness :
  exists data n,
    derive (Int 175) example_snapshot = Ok data /\
    steps_text data = str_int n /\
    n = steps_exact 175 1 120.
Proof.
  destruct (C5_steps_estimate (Int 175) 175 example_snapshot eq_refl
              ltac:(lia) ltac:(simpl; lia) ltac:(simpl; lia))
    as (data & n & Hd & Hs & _ & Hne & _).
  exists data, n. repeat split; try assumption.
  apply Hne. vm_compute. discriminate.
Defined.

(** *** Negative heights *)






Lemma steps_zero_height h d :
  int_of h = Ok 0 ->
  raises (steps h d) /\
  (0 <= d < 2 ^ 53 -> steps h d = Raise ZeroDivisionError).
Proof.
  intros Hh. unfold steps. rewrite Hh. cbn [bind].
  change (int_truediv 0 100) with (Ok (S754_zero false)). cbn [bind].
  change (float_mul (S754_zero false) lit_0_415) with (S754_zero false).
  unfold int_div_float. split.
  - destruct (float_of_int d); exact I.
  - intros Hd. destruct (Z.eq_dec d 0) as [->|Hd0]; [reflexivity|].
    destruct (Binary64Facts.float_of_int_exact d ltac:(lia))
      as (m & e & E & _).
    rewrite E. reflexivity.
Qed.




(** C9. The widths are minimums: a distance or a calorie count of 10000 or
    more is written with more than 4 characters and a speed of 100 or more
    with more than 5; the digits are those of the value, none is cut. *)
Theorem C9_widths_are_minimums (h : number) (snap : snapshot) (data : display) :
  derive h snap = Ok data ->
  (10000 <= distance snap ->
   (4 < String.length (distance_text data))%nat /\
   number_of (distance_text data) = distance snap) /\
  (10000 <= calories snap ->
   (4 < String.length (calories_text data))%nat /\
   number_of (calories_text data) = calories snap) /\
  (forall m e, speed snap = S754_finite false m e ->
   (100 <= Binary64.F2R (Z.pos m) e)%R ->
   (5 < String.length (speed_text data))%nat /\
   speed_text data
   = (str_nonneg (scaled_decimal 2 m e / 100) ++ "."
      ++ format_d 2 (scaled_decimal 2 m e mod 100))%string).
Proof.
  intros Hd.
  destruct (derive_ok h snap data Hd) as (td & _ & _ & Es & Ed & Ec & _).
  rewrite Es, Ed, Ec.
  split; [|split].
  - intros Hw. split; [apply (format_d_overflows 4); assumption|].
    apply format_d_spec. lia.
  - intros Hw. split; [apply (format_d_overflows 4); assumption|].
    apply format_d_spec. lia.
  - intros m e Hs Hv. rewrite Hs.
    destruct (format_f_wide m e (scaled_decimal_large m e Hv)) as [E L].
    split; assumption.
Qed.

Lemma float_128_value : (100 <= Binary64.F2R 4503599627370496 (-45))%R.
Proof.
  unfold Binary64.F2R. change (-45) with (- (45)).
  rewrite powerRZ_neg', <- Binary64Facts.IZR_pow2 by lia.
  change (IZR (2 ^ 45)) with 35184372088832%R. lra.
Qed.

Lemma C9_witness :
  (4 < String.length "12345")%nat /\
  (4 < String.length "10000")%nat /\
  (5 < String.length "128.00")%nat.
Proof.
  assert (Hd : derive (Int 175) wide_snapshot
               = Ok {| speed_text := "128.00";
                       distance_text := "12345";
                       calories_text := "10000";
                       duration_text := "1 day, 1:01:01";
                       steps_text := "16998" |})
    by (vm_compute; reflexivity).
  destruct (C9_widths_are_minimums _ _ _ Hd) as (H1 & H2 & H3).
  split; [apply H1; simpl; lia|].
  split; [apply H2; simpl; lia|].
  apply (H3 4503599627370496%positive (-45)); [reflexivity|].
  apply float_128_value.
Defined.

(** C10. From 86400 elapsed seconds on, the duration carries a day
    component in front of the clock of the remaining seconds; below 86400
    it is the clock alone, with no day component. *)
Theorem C10_day_component (h : number) (snap : snapshot) (data : display) :
  derive h snap = Ok data -> 0 <= time snap ->
  (86400 <= time snap ->
   duration_text data
   = (str_nonneg (time snap / 86400) ++ " day"
      ++ (if (time snap / 86400 =? 1)%Z then "" else "s") ++ ", "
      ++ clock (time snap mod 86400))%string /\
   contains "day" (duration_text data) = true) /\
  (time snap < 86400 ->
   duration_text data = clock (time snap) /\
   contains "day" (duration_text data) = false).
Proof.
  intros Hd Ht.
  destruct (derive_ok h snap data Hd) as (td & Htd & _ & _ & _ & _ & Edur).
  destruct (timedelta_of_seconds_ok _ _ Htd) as [-> _].
  rewrite Edur, timedelta_str_whole. split.
  - intros Hday.
    assert (Hq : 1 <= time snap / 86400)
      by (apply Z.div_le_lower_bound; lia).
    destruct (Z.eqb_spec (time snap / 86400) 0) as [|_]; [lia|].
    rewrite str_int_nonneg, Z.abs_eq by lia. split; [reflexivity|].
    apply contains_app_r. reflexivity.
  - intros Hday. rewrite Z.div_small, Z.mod_small by lia. cbn [Z.eqb].
    split; [reflexivity|].
    destruct (clock_spec (time snap) ltac:(lia)) as (_ & _ & _ & _ & _ & _ & _ & Hm).
    destruct (contains "day" (clock (time snap))) eqn:Ec; [|reflexivity].
    apply contains_mentions in Ec. congruence.
Qed.

Lemma C10_witness :
  contains "day" "1 day, 1:01:01" = true /\
  contains "day" "1:02:05" = false.
Proof.
  assert (Hw : derive (Int 175) wide_snapshot
               = Ok {| speed_text := "128.00";
                       distance_text := "12345";
                       calories_text := "10000";
                       duration_text := "1 day, 1:01:01";
                       steps_text := "16998" |})
    by (vm_compute; reflexivity).
  assert (He : derive (Int 175) example_snapshot
               = Ok {| speed_text := "05.20";
                       distance_text := "0120";
                       calories_text := "0045";
                       duration_text := "1:02:05";
                       steps_text := "165" |})
    by (vm_compute; reflexivity).
  split.
  - apply (C10_day_component _ _ _ Hw); simpl; lia.
  - apply (C10_day_component _ _ _ He); simpl; lia.
Defined.

Lemma C4_witness :
  exists a' n,
    render (Int 175) example_snapshot (new_app telemetry_queue) = Ok a' /\
    follows "00.00" (SpeedDisplay (screen a')) = true /\
    follows "0000" (CaloriesDisplay (screen a')) = true /\
    StepsDisplay (screen a') = str_nonneg n.
Proof.
  destruct (C4_render_fields (Int 175) 175 example_snapshot
              (new_app telemetry_queue) 520 eq_refl ltac:(lia) eq_refl
              ltac:(lia) ltac:(simpl; lia) ltac:(simpl; lia) ltac:(simpl; lia))
    as (a' & n & Hr & _ & Hs & _ & _ & Hc & _ & _ & _ & _ & _ & Hn & _).
  exists a', n. repeat split; assumption.
Defined.

End DisplayProperties.

(** * Further properties of the display *)

Section SpeedAccuracy.

Import TextFacts Binary64 Binary64Facts.

(** Rounding half to even is within half a unit, and a tie gives an even
    result. *)
Lemma round_half_even_nearest num den :
  0 <= num -> 0 < den ->
  2 * Z.abs (round_half_even num den * den - num) <= den /\
  (2 * Z.abs (round_half_even num den * den - num) = den ->
   Z.even (round_half_even num den) = true).
Proof.
  intros Hn Hd. unfold round_half_even.
  pose proof (Z.div_mod num den ltac:(lia)) as Hdm.
  pose proof (Z.mod_pos_bound num den Hd) as Hr.
  set (q := num / den) in *. set (r := num mod den) in *.
  destruct (Z.compare_spec (2 * r) den) as [C|C|C].
  - destruct (Z.even q) eqn:Ev.
    + split; [nia | intros _; exact Ev].
    + split; [nia|]. intros _.
      replace (q + 1) with (Z.succ q) by lia.
      rewrite Z.even_succ, <- Z.negb_even, Ev. reflexivity.
  - split; nia.
  - split; nia.
Qed.

Lemma format_d_unpadded w n :
  0 <= n -> (w <= String.length (str_nonneg n))%nat ->
  format_d w n = str_nonneg n.
Proof.
  intros Hn Hw. unfold format_d.
  destruct (Z.ltb_spec n 0); [lia|].
  rewrite Z.abs_eq, zfill_unsigned by lia.
  replace (w - String.length (str_nonneg n))%nat with 0%nat by lia.
  reflexivity.
Qed.

(** Every speed that is finite and not negative is written as its
    hundredths: integer part, point, two decimals. *)
Lemma format_f_hundredths m e :
  format_f 5 2 (S754_finite false m e)
  = (format_d 2 (scaled_decimal 2 m e / 100) ++ "."
     ++ format_d 2 (scaled_decimal 2 m e mod 100))%string.
Proof.
  destruct (Z_lt_le_dec (scaled_decimal 2 m e) 10000) as [Hlt|Hge].
  - apply format_f_fits. assumption.
  - destruct (format_f_wide m e Hge) as [E _]. rewrite E.
    rewrite (format_d_unpadded 2 (scaled_decimal 2 m e / 100));
      [reflexivity | |].
    + apply Z.div_pos; lia.
    + assert (Hq : 10 ^ 2 <= scaled_decimal 2 m e / 100)
        by (apply Z.div_le_lower_bound; lia).
      pose proof (str_nonneg_wide _ 2 ltac:(lia) Hq). lia.
Qed.

(** The hundredths are the speed rounded to the nearest, ties to even. *)
Lemma scaled_decimal_nearest m e :
  (Rabs (IZR (scaled_decimal 2 m e) / 100 - F2R (Z.pos m) e) <= 5 / 1000)%R /\
  (Rabs (IZR (scaled_decimal 2 m e) / 100 - F2R (Z.pos m) e) = 5 / 1000
   -> Z.even (scaled_decimal 2 m e) = true)%R.
Proof.
  unfold scaled_decimal, F2R. change (10 ^ Z.of_nat 2) with 100.
  destruct (Z.leb_spec 0 e) as [He|He].
  - rewrite !mult_IZR, IZR_pow2 by assumption.
    replace (IZR (Z.pos m) * powerRZ 2 e * 100 / 100
             - IZR (Z.pos m) * powerRZ 2 e)%R with 0%R by (field; lra).
    rewrite Rabs_R0. split; [lra | intros; lra].
  - assert (Hp : 0 < 2 ^ (- e)) by (apply Z.pow_pos_nonneg; lia).
    destruct (round_half_even_nearest (Z.pos m * 100) (2 ^ (- e))
                ltac:(lia) Hp) as [Hb Ht].
    set (cs := round_half_even (Z.pos m * 100) (2 ^ (- e))) in *.
    set (den := 2 ^ (- e)) in *.
    assert (HD : (0 < IZR den)%R) by (apply IZR_lt; assumption).
    assert (Hpw : powerRZ 2 e = (/ IZR den)%R).
    { unfold den. rewrite IZR_pow2 by lia.
      rewrite powerRZ_neg', Rinv_inv. reflexivity. }
    rewrite Hpw.
    assert (Ediff : (IZR cs / 100 - IZR (Z.pos m) * / IZR den
                     = IZR (cs * den - Z.pos m * 100) / (100 * IZR den))%R).
    { rewrite minus_IZR, !mult_IZR. field. lra. }
    rewrite Ediff. unfold Rdiv.
    rewrite Rabs_mult, (Rabs_pos_eq (/ (100 * IZR den))), <- abs_IZR.
    2:{ apply Rlt_le, Rinv_0_lt_compat. lra. }
    set (k := Z.abs (cs * den - Z.pos m * 100)) in *.
    assert (Hk : (2 * IZR k <= IZR den)%R).
    { rewrite <- (mult_IZR 2). apply IZR_le. exact Hb. }
    assert (Einv : (/ (100 * IZR den) = / 100 * / IZR den)%R)
      by (field; lra).
    rewrite Einv. split.
    + apply Rmult_le_reg_r with (IZR den); [assumption|].
      replace (IZR k * (/ 100 * / IZR den) * IZR den)%R
        with (IZR k / 100)%R by (field; lra).
      lra.
    + intros Heq. apply Ht. apply eq_IZR. rewrite mult_IZR.
      assert (Hx : (IZR k * (/ 100 * / IZR den) * IZR den
                    = 5 * / 1000 * IZR den)%R) by (rewrite Heq; reflexivity).
      replace (IZR k * (/ 100 * / IZR den) * IZR den)%R
        with (IZR k / 100)%R in Hx by (field; lra).
      lra.
Qed.

(** The text of a finite double: the sign if its bit is set, the integer
    part of the hundredths padded with zeros, a point, two decimals. *)
Lemma format_f_finite_shape (x : float) :
  is_finite x = true ->
  exists ip : string,
    format_f 5 2 x
    = ((if sign_bit x then "-" else "") ++ ip ++ "."
       ++ format_d 2 (shown_hundredths x mod 100))%string /\
    all_digits ip = true /\
    (1 <= String.length ip)%nat /\
    number_of ip = shown_hundredths x / 100 /\
    (sign_bit x = false -> ip = format_d 2 (shown_hundredths x / 100)).
Proof.
  intros Hfin.
  assert (Hcs : 0 <= shown_hundredths x).
  { destruct x; simpl; try lia. apply scaled_decimal_nonneg. }
  assert (E : format_f 5 2 x
              = zfill_sign 5 (sign_bit x) (fixed_digits 2 (shown_hundredths x))).
  { destruct x; try discriminate Hfin; reflexivity. }
  set (cs := shown_hundredths x) in *. set (s := sign_bit x) in *.
  rewrite E, fixed_digits_2 by assumption.
  assert (Hq : 0 <= cs / 100) by (apply Z.div_pos; lia).
  destruct (str_nonneg_spec (cs / 100) Hq) as (A & N & L & _).
  pose proof (Z.mod_pos_bound cs 100 ltac:(lia)) as Hr.
  pose proof (format_d_fits 2 (cs mod 100) ltac:(lia) ltac:(simpl; lia)) as Lf.
  unfold zfill_sign.
  set (body := (str_nonneg (cs / 100) ++ "." ++ format_d 2 (cs mod 100))%string).
  set (k := (5 - String.length (if s then "-" else "")
             - String.length body)%nat).
  exists (zeros k ++ str_nonneg (cs / 100))%string.
  split; [unfold body; rewrite !append_assoc; reflexivity|].
  split; [rewrite all_digits_app, all_digits_zeros, A; reflexivity|].
  split; [rewrite length_append; lia|].
  split; [unfold number_of in *; rewrite read_digits_zeros; exact N|].
  intros Hs. unfold k, body. rewrite Hs.
  rewrite !length_append, Lf.
  change (String.length "") with 0%nat. change (String.length ".") with 1%nat.
  unfold format_d. destruct (Z.ltb_spec (cs / 100) 0); [lia|].
  rewrite Z.abs_eq, zfill_unsigned by lia. do 2 f_equal. lia.
Qed.

Lemma shown_hundredths_nearest (x : float) :
  (Rabs (IZR (shown_hundredths x) / 100 - magnitude x) <= 5 / 1000)%R /\
  ((Rabs (IZR (shown_hundredths x) / 100 - magnitude x) = 5 / 1000)%R ->
   Z.even (shown_hundredths x) = true).
Proof.
  destruct x as [s|s| |s m e]; try apply scaled_decimal_nearest;
    simpl; (replace (0 / 100 - 0)%R with 0%R by (field; lra));
    rewrite Rabs_R0; (split; [lra | reflexivity]).
Qed.

(** X1. The speed shown is the speed to the nearest hundredth. For every
    finite speed, zero included, the text is the sign when the sign bit is
    set, then an integer part, a point and two decimals; the hundredths
    they stand for are within 0.005 of the magnitude of the speed, a tie
    going to the even hundredth; for a speed that is not negative the
    integer part is padded to two digits. *)
Theorem X1_speed_text_is_nearest_hundredth
    (h : number) (snap : snapshot) (data : display) :
  derive h snap = Ok data ->
  is_finite (speed snap) = true ->
  exists (cs : Z) (ip : string),
    cs = shown_hundredths (speed snap) /\
    0 <= cs /\
    speed_text data
    = ((if sign_bit (speed snap) then "-" else "") ++ ip ++ "."
       ++ format_d 2 (cs mod 100))%string /\
    all_digits ip = true /\
    (1 <= String.length ip)%nat /\
    number_of ip = cs / 100 /\
    (sign_bit (speed snap) = false -> ip = format_d 2 (cs / 100)) /\
    follows "00" (format_d 2 (cs mod 100)) = true /\
    number_of (format_d 2 (cs mod 100)) = cs mod 100 /\
    (Rabs (IZR cs / 100 - magnitude (speed snap)) <= 5 / 1000)%R /\
    ((Rabs (IZR cs / 100 - magnitude (speed snap)) = 5 / 1000)%R ->
     Z.even cs = true).
Proof.
  intros Hd Hfin.
  destruct (derive_ok h snap data Hd) as (_ & _ & _ & Es & _).
  destruct (format_f_finite_shape (speed snap) Hfin)
    as (ip & Et & Aip & Lip & Nip & Pip).
  destruct (shown_hundredths_nearest (speed snap)) as [Hn Ht].
  assert (Hcs : 0 <= shown_hundredths (speed snap)).
  { destruct (speed snap); simpl; try lia. apply scaled_decimal_nonneg. }
  exists (shown_hundredths (speed snap)), ip.
  set (cs := shown_hundredths (speed snap)) in *.
  pose proof (Z.mod_pos_bound cs 100 ltac:(lia)) as Hr.
  destruct (format_d_spec 2 (cs mod 100) ltac:(lia)) as (A2 & N2 & _).
  pose proof (format_d_fits 2 (cs mod 100) ltac:(lia) ltac:(simpl; lia)) as L2.
  split; [reflexivity|]. split; [exact Hcs|].
  split; [rewrite Es; exact Et|].
  split; [exact Aip|]. split; [exact Lip|]. split; [exact Nip|].
  split; [exact Pip|].
  split; [by_width A2 L2|]. split; [exact N2|].
  split; [exact Hn | exact Ht].
Qed.

Lemma X1_witness :
  exists (cs : Z) (ip : string),
    cs = 0 /\
    "00.00"%string = (ip ++ "." ++ format_d 2 (cs mod 100))%string /\
    (Rabs (IZR cs / 100 - 0) <= 5 / 1000)%R.
Proof.
  destruct (X1_speed_text_is_nearest_hundredth (Int 159) idle_snapshot
              {| speed_text := "00.00";
                 distance_text := "39591";
                 calories_text := "0000";
                 duration_text := "0:00:00";
                 steps_text := "59999" |}
              ltac:(vm_compute; reflexivity) eq_refl)
    as (cs & ip & Ecs & _ & Et & _ & _ & _ & _ & _ & _ & Hn & _).
  exists cs, ip. split; [exact Ecs|]. split; [exact Et | exact Hn].
Defined.

End SpeedAccuracy.

Section DurationReadBack.

Import TextFacts.

Lemma split_at_found c a b :
  mentions c a = false ->
  split_at c (a ++ String c b) = (a, Some b).
Proof.
  induction a as [|x a IH]; simpl; intros H.
  - rewrite Ascii.eqb_refl. reflexivity.
  - apply orb_false_iff in H as [Hx Ha].
    rewrite Ascii.eqb_sym, Hx, (IH Ha). reflexivity.
Qed.

Lemma split_at_absent c a :
  mentions c a = false -> split_at c a = (a, None).
Proof.
  induction a as [|x a IH]; simpl; intros H; [reflexivity|].
  apply orb_false_iff in H as [Hx Ha].
  rewrite Ascii.eqb_sym, Hx, (IH Ha). reflexivity.
Qed.

Lemma read_number_digits s :
  all_digits s = true -> (1 <= String.length s)%nat ->
  read_number s = Some (number_of s).
Proof.
  destruct s as [|c s]; simpl String.length; intros H L; [lia|].
  unfold read_number. rewrite H. reflexivity.
Qed.

Lemma read_number_str_nonneg n :
  0 <= n -> read_number (str_nonneg n) = Some n.
Proof.
  intros Hn. destruct (str_nonneg_spec n Hn) as (A & N & L & _).
  rewrite read_number_digits, N by assumption. reflexivity.
Qed.

Lemma read_number_format_d n :
  0 <= n < 100 -> read_number (format_d 2 n) = Some n.
Proof.
  intros Hn. destruct (format_d_spec 2 n ltac:(lia)) as (A & N & _).
  pose proof (format_d_fits 2 n ltac:(lia) ltac:(simpl; lia)) as L.
  rewrite read_number_digits, N by (assumption || lia). reflexivity.
Qed.

(** A clock holds digits and colons only. *)
Lemma clock_letters c s :
  0 <= s < 86400 -> is_digit c = false -> Ascii.eqb c ":" = false ->
  mentions c (clock s) = false.
Proof.
  intros Hs Hc Hcolon.
  destruct (clock_spec s Hs) as (E & Ah & _ & _ & _ & _ & _ & _).
  pose proof (Z.mod_pos_bound (s / 60) 60 ltac:(lia)) as Hm.
  pose proof (Z.mod_pos_bound s 60 ltac:(lia)) as Hsec.
  destruct (format_d_spec 2 (s / 60 mod 60) ltac:(lia)) as (Am & _ & _).
  destruct (format_d_spec 2 (s mod 60) ltac:(lia)) as (As & _ & _).
  rewrite E, !mentions_app.
  rewrite (digits_mention_no_letter c _ Hc Ah),
    (digits_mention_no_letter c _ Hc Am),
    (digits_mention_no_letter c _ Hc As).
  simpl. rewrite Hcolon. reflexivity.
Qed.

(** A clock of less than a day reads back as its seconds. *)
Lemma read_clock_clock s :
  0 <= s < 86400 -> read_clock (clock s) = Some s.
Proof.
  intros Hs.
  destruct (clock_spec s Hs) as (E & Ah & _ & _ & _ & _ & _ & _).
  assert (Hh : 0 <= s / 60 / 60).
  { apply Z.div_pos; [apply Z.div_pos|]; lia. }
  pose proof (Z.mod_pos_bound (s / 60) 60 ltac:(lia)) as Hm.
  pose proof (Z.mod_pos_bound s 60 ltac:(lia)) as Hsec.
  destruct (format_d_spec 2 (s / 60 mod 60) ltac:(lia)) as (Am & _ & _).
  assert (E' : clock s
               = (str_nonneg (s / 60 / 60)
                  ++ String ":" (format_d 2 (s / 60 mod 60)
                                 ++ String ":" (format_d 2 (s mod 60))))%string)
    by (rewrite E; reflexivity).
  unfold read_clock. rewrite E'.
  rewrite split_at_found
    by (apply digits_mention_no_letter; [reflexivity | assumption]).
  rewrite split_at_found
    by (apply digits_mention_no_letter; [reflexivity | assumption]).
  rewrite read_number_str_nonneg, !read_number_format_d by lia.
  f_equal.
  pose proof (Z.div_mod s 60 ltac:(lia)).
  pose proof (Z.div_mod (s / 60) 60 ltac:(lia)).
  lia.
Qed.

Lemma read_duration_text t :
  0 <= t ->
  read_duration
    (timedelta_str {| days := t / 86400; seconds := t mod 86400;
                      microseconds := 0 |})
  = Some t.
Proof.
  intros Ht.
  pose proof (Z.mod_pos_bound t 86400 ltac:(lia)) as Hs.
  pose proof (Z.div_mod t 86400 ltac:(lia)) as Hdm.
  assert (Hd : 0 <= t / 86400) by (apply Z.div_pos; lia).
  rewrite timedelta_str_whole. unfold read_duration.
  destruct (Z.eqb_spec (t / 86400) 0) as [E0|E0].
  - rewrite split_at_absent
      by (apply clock_letters; [assumption | reflexivity | reflexivity]).
    rewrite read_clock_clock by assumption. f_equal. lia.
  - rewrite str_int_nonneg by assumption.
    change (str_nonneg (t / 86400) ++ " day"
            ++ (if (Z.abs (t / 86400) =? 1)%Z then "" else "s") ++ ", "
            ++ clock (t mod 86400))%string
      with (str_nonneg (t / 86400)
            ++ String " " ("day"
                 ++ (if (Z.abs (t / 86400) =? 1)%Z then "" else "s") ++ ", "
                 ++ clock (t mod 86400)))%string.
    rewrite split_at_found.
    2:{ destruct (str_nonneg_spec _ Hd) as (A & _).
        apply digits_mention_no_letter; [reflexivity | assumption]. }
    assert (Hsplit :
      split_at " " ("day" ++ (if (Z.abs (t / 86400) =? 1)%Z then "" else "s")
                    ++ ", " ++ clock (t mod 86400))
      = (("day" ++ (if (Z.abs (t / 86400) =? 1)%Z then "" else "s") ++ ",")%string,
         Some (clock (t mod 86400)))).
    { destruct (Z.abs (t / 86400) =? 1); reflexivity. }
    rewrite Hsplit, read_number_str_nonneg, read_clock_clock by assumption.
    f_equal. lia.
Qed.

(** X2. The duration shown determines the elapsed time: read back as days,
    hours, minutes and seconds, the text of a snapshot gives its elapsed
    seconds again. *)
Theorem X2_duration_reads_back
    (h : number) (snap : snapshot) (data : display) :
  derive h snap = Ok data -> 0 <= time snap ->
  read_duration (duration_text data) = Some (time snap).
Proof.
  intros Hd Ht.
  destruct (derive_ok h snap data Hd) as (td & Htd & _ & _ & _ & _ & Edur).
  destruct (timedelta_of_seconds_ok _ _ Htd) as [-> _].
  rewrite Edur. apply read_duration_text. assumption.
Qed.

Lemma X2_witness :
  read_duration "1 day, 1:01:01" = Some 90061.
Proof.
  apply (X2_duration_reads_back (Int 175) wide_snapshot
           {| speed_text := "128.00";
              distance_text := "12345";
              calories_text := "10000";
              duration_text := "1 day, 1:01:01";
              steps_text := "16998" |});
    [vm_compute; reflexivity | simpl; lia].
Defined.

End DurationReadBack.

Section Placeholders.

Import TextFacts.

Lemma zfill_sign_length w neg body :
  (w <= String.length (zfill_sign w neg body))%nat.
Proof.
  unfold zfill_sign. rewrite !length_append, length_zeros. lia.
Qed.

Lemma format_f_length x : (5 <= String.length (format_f 5 2 x))%nat.
Proof. destruct x; apply zfill_sign_length. Qed.

Lemma steps_ok_str h d s :
  steps h d = Ok s -> exists n, s = str_int n.
Proof.
  unfold steps.
  destruct (int_of h) as [H|]; [cbn [bind] | discriminate].
  destruct (int_truediv H 100) as [a|]; [cbn [bind] | discriminate].
  destruct (int_div_float d (float_mul a lit_0_415)) as [q|];
    [cbn [bind] | discriminate].
  destruct (int_of_float q) as [n|]; [cbn [bind] | discriminate].
  intros [= <-]. exists n. reflexivity.
Qed.

(** [str(n)] has no leading zero: it is never ["0000"]. *)
Lemma str_int_not_zeros n : str_int n <> "0000"%string.
Proof.
  unfold str_int. destruct (Z.ltb_spec n 0) as [Hn|Hn]; [discriminate|].
  intros E. destruct (str_nonneg_spec n Hn) as (_ & N & _).
  rewrite E in N. change (number_of "0000") with 0 in N. subst n.
  discriminate E.
Qed.

Lemma clock_not_padded s : 0 <= s < 86400 -> clock s <> "00:00:00"%string.
Proof.
  intros Hs E.
  destruct (clock_spec s Hs) as (Ec & Ah & Nh & _).
  assert (E' : clock s
               = (str_nonneg (s / 60 / 60)
                  ++ String ":" (format_d 2 (s / 60 mod 60)
                                 ++ String ":" (format_d 2 (s mod 60))))%string)
    by (rewrite Ec; reflexivity).
  apply (f_equal (split_at ":")) in E. rewrite E' in E.
  rewrite split_at_found in E
    by (apply digits_mention_no_letter; [reflexivity | assumption]).
  injection E as Eh _.
  rewrite Eh in Nh. change (number_of "00") with 0 in Nh.
  rewrite <- Nh in Eh. discriminate Eh.
Qed.

Lemma timedelta_str_not_padded t td :
  timedelta_of_seconds t = Ok td -> timedelta_str td <> "00:00:00"%string.
Proof.
  intros Htd. destruct (timedelta_of_seconds_ok _ _ Htd) as [-> _].
  rewrite timedelta_str_whole.
  pose proof (Z.mod_pos_bound t 86400 ltac:(lia)) as Hs.
  destruct (t / 86400 =? 0).
  - apply clock_not_padded. assumption.
  - intros E. apply (f_equal (mentions "d")) in E.
    rewrite mentions_app in E.
    change (mentions "d" "00:00:00") with false in E.
    apply orb_false_iff in E as [_ E]. discriminate E.
Qed.

(** X3. Once a snapshot has been rendered, the speed, calories, duration
    and steps displays no longer show the text they were composed with: no
    snapshot is formatted as ["00.0"], ["000"], ["00:00:00"] or ["0000"]
    steps. *)
Theorem X3_placeholders_are_never_rendered
    (h : number) (snap : snapshot) (a a' : app) :
  render h snap a = Ok a' ->
  SpeedDisplay (screen a') <> SpeedDisplay compose /\
  CaloriesDisplay (screen a') <> CaloriesDisplay compose /\
  DurationDisplay (screen a') <> DurationDisplay compose /\
  StepsDisplay (screen a') <> StepsDisplay compose.
Proof.
  unfold render. destruct (derive h snap) as [data|] eqn:Hd; [|discriminate].
  cbn [bind]. intros [= <-].
  destruct (derive_ok h snap data Hd) as (td & Htd & Hst & Es & _ & Ec & Edur).
  cbn [on_treadmill_update screen SpeedDisplay CaloriesDisplay DurationDisplay
       StepsDisplay compose].
  split; [|split; [|split]].
  - intros E. pose proof (format_f_length (speed snap)) as L.
    rewrite <- Es, E in L. simpl in L. lia.
  - intros E. pose proof (zfill_sign_length 4 (calories snap <? 0)
                            (str_nonneg (Z.abs (calories snap)))) as L.
    fold (format_d 4 (calories snap)) in L.
    rewrite <- Ec, E in L. simpl in L. lia.
  - rewrite Edur. apply (timedelta_str_not_padded _ _ Htd).
  - destruct (steps_ok_str _ _ _ Hst) as (n & ->). apply str_int_not_zeros.
Qed.

Lemma X3_witness :
  "05.20"%string <> "00.0"%string /\ "0045"%string <> "000"%string /\
  "1:02:05"%string <> "00:00:00"%string /\ "165"%string <> "0000"%string.
Proof.
  apply (X3_placeholders_are_never_rendered (Int 175) example_snapshot
           (new_app telemetry_queue)
           {| queue := telemetry_queue;
              controller := [];
              workers := [];
              posted := [];
              screen := {| DurationDisplay := "1:02:05";
                           SpeedDisplay := "05.20";
                           CaloriesDisplay := "0045";
                           DistanceDisplay := "0120";
                           StepsDisplay := "165" |} |}).
  vm_compute. reflexivity.
Defined.

End Placeholders.

(** * Further properties of the application *)

Section WorkerFailure.

Lemma nth_error_set_state i s : forall ws w,
  nth_error ws i = Some w ->
  nth_error (set_state i s ws) i = Some {| group := group w; state := s |}.
Proof.
  induction i as [|i IH]; intros [|w0 ws] w H; try discriminate.
  - injection H as ->. reflexivity.
  - simpl in *. apply IH. assumption.
Qed.

(** X4. A snapshot on which the derivation raises is lost and stops the
    loop: the running worker takes it from the queue, posts nothing, leaves
    the screen as it was and ends in error; resumed again, it takes nothing
    more. *)
Theorem X4_failed_snapshot_stops_worker
    (h : number) (i : nat) (a : app) (w : worker)
    (x : snapshot) (rest : list snapshot) (e : exn) :
  nth_error (workers a) i = Some w -> is_running w = true ->
  Queue.items (queue a) = x :: rest ->
  derive h x = Raise e ->
  Queue.items (queue (watch_queue h i a)) = rest /\
  posted (watch_queue h i a) = posted a /\
  screen (watch_queue h i a) = screen a /\
  controller (watch_queue h i a) = controller a /\
  nth_error (workers (watch_queue h i a)) i
    = Some {| group := group w; state := ERROR |} /\
  watch_queue h i (watch_queue h i a) = watch_queue h i a.
Proof.
  intros Hw Hr Hq Hd.
  assert (E : watch_queue h i a
              = {| queue := {| Queue.maxsize := Queue.maxsize (queue a);
                               Queue.items := rest |};
                   controller := controller a;
                   workers := set_state i ERROR (workers a);
                   posted := posted a;
                   screen := screen a |}).
  { unfold watch_queue, Queue.get. rewrite Hw, Hr, Hq, Hd. reflexivity. }
  rewrite E. cbn [queue Queue.items posted screen controller workers].
  pose proof (nth_error_set_state i ERROR _ _ Hw) as Hn.
  repeat split; try assumption.
  unfold watch_queue. cbn [workers]. rewrite Hn. reflexivity.
Qed.

Lemma X4_witness :
  Queue.items (queue (watch_queue (Int 0) 0 mounted_app)) = [] /\
  posted (watch_queue (Int 0) 0 mounted_app) = [].
Proof.
  destruct (X4_failed_snapshot_stops_worker (Int 0) 0 mounted_app
              {| group := "default"; state := RUNNING |}
              example_snapshot [] ZeroDivisionError
              eq_refl eq_refl eq_refl ltac:(vm_compute; reflexivity))
    as (Hq & Hp & _).
  split; assumption.
Defined.

Lemma oks_all_raise {A B : Type} (f : A -> result B) (xs : list A) :
  (forall x, raises (f x)) -> oks (map f xs) = [].
Proof.
  intros H. induction xs as [|x xs IH]; [reflexivity|].
  simpl. specialize (H x). destruct (f x); [destruct H | exact IH].
Qed.

Lemma derive_zero_height h snap :
  int_of h = Ok 0 -> raises (derive h snap).
Proof.
  intros Hh. destruct (steps_zero_height h (distance snap) Hh) as [Hr _].
  unfold derive. destruct (timedelta_of_seconds (time snap)); [|exact I].
  cbn [bind]. destruct (steps h (distance snap)); [destruct Hr | exact I].
Qed.

(** X5. With a user height that truncates to zero the display never
    updates: under every schedule of mounts, notifications and worker
    steps, no message is ever posted. *)
Theorem X5_zero_height_posts_nothing (h : number) (es : list event) :
  int_of h = Ok 0 -> posted (ui (run_system h es)) = [].
Proof.
  intros Hh.
  destruct (run_system_inv h es) as (_ & _ & taken & _ & Hp).
  rewrite Hp. apply oks_all_raise. intros x.
  apply derive_zero_height. assumption.
Qed.

Lemma X5_witness :
  posted (ui (run_system (Int 0)
                [Mount; Notify example_snapshot; Resume 0%nat;
                 Notify example_snapshot; Resume 0%nat])) = [].
Proof. apply X5_zero_height_posts_nothing. reflexivity. Defined.

End WorkerFailure.

Section UserInterface.

Lemma on_button_pressed_cases id a :
  on_button_pressed id a = a \/
  exists c, handler_call c /\ on_button_pressed id a = call_controller c a.
Proof.
  unfold on_button_pressed, handler_call.
  destruct (String.eqb id "start"); [right; exists Start; auto|].
  destruct (String.eqb id "stop"); [right; exists Stop; auto|].
  destruct (String.eqb id "inc_speed"); [right; exists (SetSpeed 2); auto|].
  destruct (String.eqb id "dec_speed"); [right; exists (SetSpeed 1); auto 6|].
  left. reflexivity.
Qed.

(** X6. Whatever buttons are pressed, in whatever order, the controller
    only ever receives [start()], [stop()], [set_speed(2)] and
    [set_speed(1)], appended to what it had received, at most one call per
    press; the telemetry queue, the workers, the posted messages and the
    screen are not touched. *)
Theorem X6_buttons_only_call_the_controller (ids : list string) (a : app) :
  exists calls : list call,
    controller (press_all ids a) = (controller a ++ calls)%list /\
    Forall handler_call calls /\
    (List.length calls <= List.length ids)%nat /\
    queue (press_all ids a) = queue a /\
    workers (press_all ids a) = workers a /\
    posted (press_all ids a) = posted a /\
    screen (press_all ids a) = screen a.
Proof.
  revert a. induction ids as [|id ids IH]; intros a.
  - exists []. simpl. rewrite app_nil_r. repeat split; auto.
  - change (press_all (id :: ids) a)
      with (press_all ids (on_button_pressed id a)).
    destruct (IH (on_button_pressed id a))
      as (calls & Hc & Hf & Hl & Hq & Hw & Hp & Hs).
    destruct (on_button_pressed_cases id a) as [E|(c & Hcall & E)];
      rewrite E in *.
    + exists calls. simpl. repeat split; auto.
    + exists (c :: calls). simpl in *.
      rewrite Hc, <- app_assoc. repeat split; auto. lia.
Qed.

Lemma handle_all_frame ds : forall a,
  queue (handle_all ds a) = queue a /\
  controller (handle_all ds a) = controller a /\
  workers (handle_all ds a) = workers a /\
  posted (handle_all ds a) = posted a.
Proof.
  induction ds as [|d ds IH]; intros a; [repeat split|].
  change (handle_all (d :: ds) a)
    with (handle_all ds (on_treadmill_update d a)).
  destruct (IH (on_treadmill_update d a)) as (Hq & Hc & Hw & Hp).
  repeat split; assumption.
Qed.

(** X7. The screen keeps no history: after any sequence of updates each of
    the five displays shows the text of the last update, whatever was shown
    before or composed at the start; the queue, the controller, the workers
    and the posted messages are left alone. *)
Theorem X7_last_update_wins (ds : list display) (d : display) (a : app) :
  screen (handle_all (ds ++ [d]) a)
  = {| DurationDisplay := duration_text d;
       SpeedDisplay := speed_text d;
       CaloriesDisplay := calories_text d;
       DistanceDisplay := distance_text d;
       StepsDisplay := steps_text d |} /\
  queue (handle_all (ds ++ [d]) a) = queue a /\
  controller (handle_all (ds ++ [d]) a) = controller a /\
  workers (handle_all (ds ++ [d]) a) = workers a /\
  posted (handle_all (ds ++ [d]) a) = posted a.
Proof.
  split; [|apply handle_all_frame].
  unfold handle_all. rewrite fold_left_app. reflexivity.
Qed.

End UserInterface.

Section TeardownOfFinishedTask.

(** X8. A subscribe task that has already ended is not affected by the
    teardown: the cancellation does nothing and [run] ends the way the task
    ended, raising at teardown the exception the task died with. *)
Theorem X8_teardown_reraises_task_failure (k : Task.t) (r : result unit) :
  Task.st k = Task.FINISHED r ->
  run_teardown k = (k, Some r).
Proof.
  intros Hk. unfold run_teardown, Task.cancel. rewrite Hk.
  unfold Task.await, Task.wakeup. rewrite Hk. cbn iota. rewrite Hk.
  reflexivity.
Qed.

Lemma X8_witness :
  snd (run_teardown {| Task.st := Task.FINISHED (Raise OverflowError);
                       Task.must_cancel := false;
                       Task.on_cancel := Ok tt |})
  = Some (Raise OverflowError).
Proof.
  rewrite (X8_teardown_reraises_task_failure
             {| Task.st := Task.FINISHED (Raise OverflowError);
                Task.must_cancel := false;
                Task.on_cancel := Ok tt |}
             (Raise OverflowError) eq_refl).
  reflexivity.
Defined.

End TeardownOfFinishedTask.

Section StepsMonotone.

(** X9. The steps estimate never goes down as the distance grows: for a
    height of at least 1 cm and two distances below [2^32], the estimate
    of the larger distance is at least that of the smaller. *)
Theorem X9_steps_monotone (h : number) (H d1 d2 : Z) :
  int_of h = Ok H -> 1 <= H < 2 ^ 31 ->
  0 <= d1 -> d1 <= d2 -> d2 < 2 ^ 32 ->
  exists n1 n2,
    steps h d1 = Ok (str_int n1) /\
    steps h d2 = Ok (str_int n2) /\
    0 <= n1 <= n2.
Proof.
  intros Hh HH H1 H12 H2.
  destruct (steps_accuracy h H d1 Hh HH ltac:(lia))
    as (n1 & E1 & P1 & Ne1 & Eq1).
  destruct (Z.eq_dec d1 d2) as [<-|Hne].
  { exists n1, n1. repeat split; try assumption; lia. }
  destruct (steps_accuracy h H d2 Hh HH ltac:(lia))
    as (n2 & E2 & P2 & Ne2 & Eq2).
  exists n1, n2. split; [exact E1|]. split; [exact E2|].
  split; [exact P1|].
  unfold steps_exact in *. rewrite !Z.mul_1_r in *.
  set (M := 415 * H) in *.
  assert (HM : 0 < M) by (unfold M; lia).
  pose proof (Z.div_mod (100000 * d1) M ltac:(lia)) as D1.
  pose proof (Z.mod_pos_bound (100000 * d1) M HM) as R1.
  pose proof (Z.div_mod (100000 * d2) M ltac:(lia)) as D2.
  pose proof (Z.mod_pos_bound (100000 * d2) M HM) as R2.
  assert (Hle : 100000 * d1 / M <= 100000 * d2 / M)
    by (apply Z.div_le_mono; lia).
  assert (Hn1 : n1 <= 100000 * d1 / M).
  { destruct (Z.eq_dec ((100000 * d1) mod M) 0) as [Hm|Hm].
    - destruct (Eq1 Hm); lia.
    - rewrite (Ne1 Hm). lia. }
  destruct (Z.eq_dec ((100000 * d2) mod M) 0) as [Hm|Hm].
  - assert (100000 * d1 / M < 100000 * d2 / M) by nia.
    destruct (Eq2 Hm); lia.
  - rewrite (Ne2 Hm). lia.
Qed.

Lemma X9_witness :
  exists n1 n2,
    steps (Int 159) 39590 = Ok (str_int n1) /\
    steps (Int 159) 39591 = Ok (str_int n2) /\
    0 <= n1 <= n2.
Proof.
  apply (X9_steps_monotone (Int 159) 159 39590 39591 eq_refl); lia.
Defined.

End StepsMonotone.

Section DisplayDeterminesReading.

Import TextFacts.

(** X10. The display tells readings apart: two snapshots with distance,
    calories and elapsed time that are not negative and the same five
    texts have the same distance, the same calories and the same elapsed
    time. *)
Theorem X10_display_determines_reading
    (h : number) (s1 s2 : snapshot) (data : display) :
  derive h s1 = Ok data -> derive h s2 = Ok data ->
  0 <= distance s1 -> 0 <= distance s2 ->
  0 <= calories s1 -> 0 <= calories s2 ->
  0 <= time s1 -> 0 <= time s2 ->
  distance s1 = distance s2 /\
  calories s1 = calories s2 /\
  time s1 = time s2.
Proof.
  intros H1 H2 Hd1 Hd2 Hc1 Hc2 Ht1 Ht2.
  destruct (derive_ok h s1 data H1) as (_ & _ & _ & _ & Ed1 & Ec1 & _).
  destruct (derive_ok h s2 data H2) as (_ & _ & _ & _ & Ed2 & Ec2 & _).
  destruct (format_d_spec 4 (distance s1) Hd1) as (_ & Nd1 & _).
  destruct (format_d_spec 4 (distance s2) Hd2) as (_ & Nd2 & _).
  destruct (format_d_spec 4 (calories s1) Hc1) as (_ & Nc1 & _).
  destruct (format_d_spec 4 (calories s2) Hc2) as (_ & Nc2 & _).
  rewrite <- Ed1 in Nd1. rewrite <- Ed2 in Nd2.
  rewrite <- Ec1 in Nc1. rewrite <- Ec2 in Nc2.
  destruct (derive_ok h s1 data H1) as (td1 & Htd1 & _ & _ & _ & _ & Edur1).
  destruct (derive_ok h s2 data H2) as (td2 & Htd2 & _ & _ & _ & _ & Edur2).
  destruct (timedelta_of_seconds_ok _ _ Htd1) as [-> _].
  destruct (timedelta_of_seconds_ok _ _ Htd2) as [-> _].
  pose proof (read_duration_text (time s1) Ht1) as R1.
  pose proof (read_duration_text (time s2) Ht2) as R2.
  rewrite <- Edur1 in R1. rewrite <- Edur2 in R2.
  split; [congruence|]. split; congruence.
Qed.

Lemma X10_witness :
  distance example_snapshot = distance example_snapshot /\
  calories example_snapshot = calories example_snapshot /\
  time example_snapshot = time example_snapshot.
Proof.
  apply (X10_display_determines_reading (Int 175) example_snapshot
           example_snapshot
           {| speed_text := "05.20";
              distance_text := "0120";
              calories_text := "0045";
              duration_text := "1:02:05";
              steps_text := "165" |});
    try (vm_compute; reflexivity); simpl; lia.
Defined.

End DisplayDeterminesReading.

Section Remount.

Lemma cancel_worker_stops w : is_running (cancel_worker w) = false.
Proof. destruct w as [g [| |]]; reflexivity. Qed.

Lemma watch_queue_stopped h i a w :
  nth_error (workers a) i = Some w -> is_running w = false ->
  watch_queue h i a = a.
Proof. intros Hw Hr. unfold watch_queue. rewrite Hw, Hr. reflexivity. Qed.

(** X11. After the loop is started again, the workers started before it
    take nothing more: under every schedule, once [on_mount] has run,
    resuming any of the earlier workers leaves the application as it is,
    so only the newest worker reads the queue. *)
Theorem X11_earlier_workers_are_inert
    (h : number) (es : list event) (i : nat) :
  (i < List.length (workers (ui (run_system h es))))%nat ->
  watch_queue h i (on_mount (ui (run_system h es)))
  = on_mount (ui (run_system h es)).
Proof.
  intros Hi. destruct (run_system_inv h es) as (Hg & _ & _).
  set (a := ui (run_system h es)) in *.
  destruct (nth_error (workers a) i) as [w|] eqn:Hw.
  2:{ apply nth_error_None in Hw. lia. }
  apply (watch_queue_stopped h i _ (cancel_worker w)).
  - rewrite (on_mount_workers a Hg), nth_error_app1
      by (rewrite length_map; assumption).
    apply map_nth_error. assumption.
  - apply cancel_worker_stops.
Qed.

Lemma X11_witness :
  watch_queue (Int 175) 0
    (on_mount (ui (run_system (Int 175) [Mount; Notify example_snapshot])))
  = on_mount (ui (run_system (Int 175) [Mount; Notify example_snapshot])).
Proof.
  apply (X11_earlier_workers_are_inert (Int 175)
           [Mount; Notify example_snapshot] 0).
  simpl. lia.
Defined.

End Remount.
